(** * DataStudio metadata taxonomy: a shallow embedding of
  [datastudio/core/metadata.py] and the properties of its attribute
  stores, metadata records, taxonomy container and factories.

  Python objects are mutable, so every method is a state transformer on
  the object it is called on; exceptions leave the object as it was at
  the point of the raise.  Ambient facts (login name, wall clock, uuid,
  host data) are read from an explicit environment. *)

From Stdlib Require Import List String Ascii Bool ZArith Lia DecimalString.
Import ListNotations.
Local Open Scope string_scope.
Local Open Scope Z_scope.

Set Implicit Arguments.
Set Warnings "-register-all".

(* ------------------------------------------------------------------ *)
(** ** Python strings *)
(* ------------------------------------------------------------------ *)

Module PyStr.

(** [str.lower()] on ASCII text: the letters A..Z move to a..z, every
    other character stays.  Python lower-cases letters outside ASCII as
    well; the properties below apply [lower] to the four kind names, to
    keys compared with them, or to text they assume to be ASCII. *)
Definition lower_ascii (c : ascii) : ascii :=
  let n := nat_of_ascii c in
  if andb (Nat.leb 65 n) (Nat.leb n 90) then ascii_of_nat (n + 32) else c.

Fixpoint lower (s : string) : string :=
  match s with
  | EmptyString => EmptyString
  | String c s' => String (lower_ascii c) (lower s')
  end.

(** [needle in hay]: the needle starts at some position of the hay. *)
Fixpoint contains (needle hay : string) : bool :=
  if String.prefix needle hay then true
  else match hay with
       | EmptyString => false
       | String _ hay' => contains needle hay'
       end.

(** [str(n)] for an integer. *)
Definition str (n : Z) : string := NilZero.string_of_int (Z.to_int n).

(** Truth value of a string: only the empty string is falsy. *)
Definition truthy (s : string) : bool :=
  match s with EmptyString => false | _ => true end.

(** [s.isascii()] *)
Fixpoint is_ascii (s : string) : bool :=
  match s with
  | EmptyString => true
  | String c s' => andb (Nat.ltb (nat_of_ascii c) 128) (is_ascii s')
  end.

End PyStr.

(* ------------------------------------------------------------------ *)
(** ** Insertion-ordered dictionaries with string keys *)
(* ------------------------------------------------------------------ *)

Module Dict.
Section Dict.
Variable V : Type.

(** A [dict] / [OrderedDict]: the items in insertion order. *)
Definition t := list (string * V).

Definition empty : t := [].

(** [d.get(k)] / [d[k]] when present. *)
Fixpoint get (k : string) (d : t) : option V :=
  match d with
  | [] => None
  | (k', v) :: d' => if String.eqb k k' then Some v else get k d'
  end.

(** [k in d] *)
Definition mem (k : string) (d : t) : bool :=
  match get k d with Some _ => true | None => false end.

(** [d[k] = v]: an existing key keeps its position, a new key goes last. *)
Fixpoint set (k : string) (v : V) (d : t) : t :=
  match d with
  | [] => [(k, v)]
  | (k', v') :: d' =>
      if String.eqb k k' then (k', v) :: d' else (k', v') :: set k v d'
  end.

(** [del d[k]] when the key is present. *)
Fixpoint del (k : string) (d : t) : t :=
  match d with
  | [] => []
  | (k', v') :: d' => if String.eqb k k' then d' else (k', v') :: del k d'
  end.

(** [d.update(other)]: the items of [other] are stored in order. *)
Definition update (other : t) (d : t) : t :=
  fold_left (fun acc kv => set (fst kv) (snd kv) acc) other d.

Definition keys (d : t) : list string := map fst d.

(** [dict(filter(lambda item: p(item[0]), d.items()))] for a dict [d]. *)
Definition filter_keys (p : string -> bool) (d : t) : t :=
  filter (fun kv => p (fst kv)) d.

(** [next(v for (k, v) in d.items() if p(k))]; [None] stands for the
    exhausted generator. *)
Fixpoint first_match (p : string -> bool) (d : t) : option V :=
  match d with
  | [] => None
  | (k, v) :: d' => if p k then Some v else first_match p d'
  end.

End Dict.
End Dict.

Arguments Dict.empty {V}.

(* ------------------------------------------------------------------ *)
(** ** Values, exceptions and the method monad *)
(* ------------------------------------------------------------------ *)

(** Attribute values: [None], booleans, integers, strings and lists of
    strings (the process log). *)
Inductive value : Type :=
| VNone
| VBool (b : bool)
| VInt (n : Z)
| VStr (s : string)
| VList (l : list string).

(** Python's truth value of an object, as tested by [if x:]. *)
Definition truthy (v : value) : bool :=
  match v with
  | VNone => false
  | VBool b => b
  | VInt n => negb (n =? 0)
  | VStr s => PyStr.truthy s
  | VList l => match l with [] => false | _ => true end
  end.

(** The exceptions the module can raise.  [KeyError] and [ValueError]
    carry their message; a [KeyError] raised by a dictionary subscript
    carries the key; [AttributeError] carries the attribute that is
    missing; [OSError] is what [os.getlogin()] raises in a process
    without a controlling terminal. *)
Inductive exn : Type :=
| KeyError (msg : string)
| ValueError (msg : string)
| TypeError
| AttributeError (attr : string)
| StopIteration
| OSError.

Inductive outcome (A : Type) : Type :=
| Return (a : A)
| Raise (e : exn).

Arguments Return {A} a.
Arguments Raise {A} e.

(** What a method call can see and change: the object it is called on
    and the standard output. *)
Record world (O : Type) : Type := World {
  self : O;
  stdout : list string
}.

(** A method of an object of type [O] that returns an [A]. *)
Definition M (O A : Type) : Type := world O -> outcome A * world O.

Definition ret {O A} (a : A) : M O A := fun w => (Return a, w).

Definition raise {O A} (e : exn) : M O A := fun w => (Raise e, w).

Definition bind {O A B} (m : M O A) (k : A -> M O B) : M O B :=
  fun w =>
    match m w with
    | (Return a, w') => k a w'
    | (Raise e, w') => (Raise e, w')
    end.

Notation "x <- m ;; k" := (bind m (fun x => k))
  (at level 61, m at next level, right associativity).
Notation "m ;; k" := (bind m (fun _ => k))
  (at level 61, right associativity).

Definition get_self {O} : M O O := fun w => (Return (self w), w).

Definition put_self {O} (o : O) : M O unit :=
  fun w => (Return tt, World o (stdout w)).

(** [print(line)] *)
Definition print {O} (line : string) : M O unit :=
  fun w => (Return tt, World (self w) (stdout w ++ [line])%list).

(** Lifts the outcome of a pure computation. *)
Definition lift {O A} (r : outcome A) : M O A := fun w => (r, w).

(** A [for] loop whose body is [body x] for each [x] of [xs]. *)
Fixpoint for_each {O X} (xs : list X) (body : X -> M O unit) : M O unit :=
  match xs with
  | [] => ret tt
  | x :: xs' => body x ;; for_each xs' body
  end.

(** [v + 1] on a value: integers and booleans add, the rest is a
    [TypeError]. *)
Definition add_one (v : value) : outcome value :=
  match v with
  | VInt n => Return (VInt (n + 1))
  | VBool b => Return (VInt (Z.b2z b + 1))
  | VNone | VStr _ | VList _ => Raise TypeError
  end.

(** ['...' + v] with a string on the left: only a string concatenates. *)
Definition str_operand (v : value) : outcome string :=
  match v with
  | VStr s => Return s
  | _ => Raise TypeError
  end.

(* ------------------------------------------------------------------ *)
(** ** Entities and the ambient environment *)
(* ------------------------------------------------------------------ *)

(** The described entity, as far as the module looks at it: the name of
    its class, and ([entity.get()]) its mapping from member name to
    member entity, in the mapping's order. *)
Inductive entity : Type :=
| Entity (class_name : string) (members : list (string * entity)).

(** [entity.__class__.__name__] *)
Definition class_name (e : entity) : string :=
  match e with Entity c _ => c end.

(** [entity.get()] *)
Definition entity_get (e : entity) : list (string * entity) :=
  match e with Entity _ ms => ms end.

(** [platform.uname()] *)
Record uname_result : Type := {
  system : string;
  node : string;
  release : string;
  version : string;
  machine : string;
  processor : string
}.

(** [psutil.virtual_memory()] *)
Record svmem : Type := {
  total : Z;
  available : Z;
  used : Z;
  percent : value
}.

(** The ambient facts a call reads: login name, clock, a fresh uuid, the
    host, and the helpers [scale_number] (from [utils.format]) and
    [sys.getsizeof], which the module only calls. *)
Record environ : Type := {
  getlogin : string;
  strftime_c : string;
  now_year : Z;
  now_month : Z;
  now_day : Z;
  now_hour : Z;
  now_minute : Z;
  now_second : Z;
  uuid4 : string;
  uname : uname_result;
  virtual_memory : svmem;
  cpu_count : bool -> value;
  scale_number : Z -> value;
  getsizeof : entity -> Z
}.

(** The process a call runs in: the ambient facts, and whether the
    process has a controlling terminal.  An [environ] alone stands for a
    process that has one, where [os.getlogin()] returns [getlogin]. *)
Record runtime : Type := {
  ambient : environ;
  has_terminal : bool
}.

(** [os.getlogin()]: the login name of the controlling terminal, an
    [OSError] when the process has none. *)
Definition os_getlogin {O} (rt : runtime) : M O string :=
  if has_terminal rt then ret (getlogin (ambient rt)) else raise OSError.

(* ------------------------------------------------------------------ *)
(** ** Metadata records *)
(* ------------------------------------------------------------------ *)

(** The concrete classes below [AbstractMetadata]. *)
Inductive klass : Type :=
| MetadataAdmin
| MetadataAdminFile
| MetadataAdminURL
| MetadataDesc
| MetadataDescDataCollection
| MetadataTech
| MetadataTechFile
| MetadataTechRDBMS
| MetadataProcess.

(** The four kinds of the taxonomy. *)
Inductive kind : Type := Administrative | Descriptive | Technical | Process.

(** The kind each class's [__init__] fixes. *)
Definition kind_of (c : klass) : kind :=
  match c with
  | MetadataAdmin | MetadataAdminFile | MetadataAdminURL => Administrative
  | MetadataDesc | MetadataDescDataCollection => Descriptive
  | MetadataTech | MetadataTechFile | MetadataTechRDBMS => Technical
  | MetadataProcess => Process
  end.

(** The string stored in [self.metadata_type]. *)
Definition kind_name (k : kind) : string :=
  match k with
  | Administrative => "Administrative"
  | Descriptive => "Descriptive"
  | Technical => "Technical"
  | Process => "Process"
  end.

(** A metadata object: its class, the attributes [AbstractMetadata.__init__]
    sets ([_entity], [_metadata]), and [_name], an attribute that
    [MetadataProcess.update] reads; [None] is an attribute that was never
    assigned. *)
Record metadata_object : Type := Object {
  cls : klass;
  _entity : entity;
  _name : option string;
  _metadata : Dict.t value
}.

(** [self.metadata_type] *)
Definition metadata_type (o : metadata_object) : string :=
  kind_name (kind_of (cls o)).

(** Replaces the attribute dictionary of an object. *)
Definition with_metadata (o : metadata_object) (d : Dict.t value) :
  metadata_object :=
  Object (cls o) (_entity o) (_name o) d.

(** What [get] hands back: one attribute's value, or a copy of the whole
    mapping. *)
Inductive got : Type :=
| Value (v : value)
| Mapping (d : Dict.t value).

Module AbstractMetadata.

(** [__init__(self, entity, name, **kwargs)]: stores the entity and an
    empty [OrderedDict]; [name] and [kwargs] are not stored. *)
Definition __init__ (c : klass) (e : entity) (name : string)
  (kwargs : Dict.t value) : metadata_object :=
  Object c e None Dict.empty.

(** [self._metadata[key] = v] *)
Definition setitem (key : string) (v : value) : M metadata_object unit :=
  o <- get_self ;;
  put_self (with_metadata o (Dict.set key v (_metadata o))).

(** [self._metadata[key]], a [KeyError] on a missing key. *)
Definition getitem (key : string) : M metadata_object value :=
  o <- get_self ;;
  match Dict.get key (_metadata o) with
  | Some v => ret v
  | None => raise (KeyError key)
  end.

(** [self._metadata[key] += 1] *)
Definition increment (key : string) : M metadata_object unit :=
  v <- getitem key ;;
  v' <- lift (add_one v) ;;
  setitem key v'.

(** [update(self, event=None)] *)
Definition update (event : value) : M metadata_object unit :=
  increment "updates".

(** [get(self, key=None)]; [None] is the omitted key. *)
Definition get (key : option string) : M metadata_object got :=
  o <- get_self ;;
  match key with
  | Some k =>
      if PyStr.truthy k then
        if Dict.mem k (_metadata o) then
          match Dict.get k (_metadata o) with
          | Some v => ret (Value v)
          | None => ret (Value VNone)
          end
        else raise (KeyError ("Key, '" ++ k ++ "', does not exist."))
      else ret (Mapping (_metadata o))
  | None => ret (Mapping (_metadata o))
  end.

(** [add(self, key, value)] *)
Definition add (key : string) (v : value) : M metadata_object unit :=
  o <- get_self ;;
  if negb (Dict.mem key (_metadata o)) then setitem key v
  else raise (ValueError ("Key " ++ key ++ " already exists.")).

(** [change(self, key, value)] *)
Definition change (key : string) (v : value) : M metadata_object unit :=
  o <- get_self ;;
  if negb (Dict.mem key (_metadata o)) then
    raise (KeyError ("Key " ++ key ++ " does not exist."))
  else setitem key v.

(** [remove(self, key)]: the [KeyError] of [del] is caught and reported
    on the standard output. *)
Definition remove (key : string) : M metadata_object unit :=
  o <- get_self ;;
  if Dict.mem key (_metadata o) then
    put_self (with_metadata o (Dict.del key (_metadata o)))
  else print ("Key " ++ key ++ " does not exist.").

End AbstractMetadata.

(** [self._metadata[key] = v] while the object is being constructed. *)
Definition store (key : string) (v : value) (o : metadata_object) :
  metadata_object :=
  with_metadata o (Dict.set key v (_metadata o)).

Module MetadataAdmin.

(** The timestamp slug of the object name. *)
Definition date_string (env : environ) : string :=
  PyStr.str (now_year env) ++ "-" ++ PyStr.str (now_month env) ++ "-" ++
  PyStr.str (now_day env) ++ "_" ++ PyStr.str (now_hour env) ++ "-" ++
  PyStr.str (now_minute env) ++ "-" ++ PyStr.str (now_second env).

Definition __init__ (c : klass) (env : environ) (e : entity) (name : string)
  (kwargs : Dict.t value) : metadata_object :=
  let o := AbstractMetadata.__init__ c e name kwargs in
  let user := getlogin env in
  let date_formatted := strftime_c env in
  let classname := class_name e in
  let o := store "id" (VStr (uuid4 env)) o in
  let o := store "name" (VStr name) o in
  let o := store "creator" (VStr user) o in
  let o := store "created" (VStr date_formatted) o in
  let o := store "modifier" (VStr user) o in
  let o := store "modified" (VStr date_formatted) o in
  let o := store "updates" (VInt 0) o in
  let o := store "classname" (VStr classname) o in
  store "objectname"
    (VStr (PyStr.lower user ++ "_" ++ date_string env ++ "_" ++ "_" ++
           PyStr.lower classname ++ "_" ++ PyStr.lower name)) o.

(** [update(self, event=None)]: the base update, then modifier, modified
    and the counter once more. *)
Definition update (env : environ) (event : value) : M metadata_object unit :=
  AbstractMetadata.update VNone ;;
  AbstractMetadata.setitem "modifier" (VStr (getlogin env)) ;;
  AbstractMetadata.setitem "modified" (VStr (strftime_c env)) ;;
  AbstractMetadata.increment "updates".

(** [MetadataAdmin(entity, name, **kwargs)] in a process that may lack a
    controlling terminal: [os.getlogin()] is the first ambient read of
    the constructor, and no object is built when it raises. *)
Definition construct (rt : runtime) (c : klass) (e : entity) (name : string)
  (kwargs : Dict.t value) : outcome metadata_object :=
  if has_terminal rt then Return (__init__ c (ambient rt) e name kwargs)
  else Raise OSError.

(** [update(self, event=None)] in such a process: the base update has
    already counted when [os.getlogin()] is called. *)
Definition update_in (rt : runtime) (event : value) :
  M metadata_object unit :=
  AbstractMetadata.update VNone ;;
  user <- os_getlogin rt ;;
  AbstractMetadata.setitem "modifier" (VStr user) ;;
  AbstractMetadata.setitem "modified" (VStr (strftime_c (ambient rt))) ;;
  AbstractMetadata.increment "updates".

End MetadataAdmin.

Module MetadataAdminURL.

(** The filter runs over the record's own items, not over [kwargs]. *)
Definition __init__ (c : klass) (env : environ) (e : entity) (name : string)
  (kwargs : Dict.t value) : metadata_object :=
  let o := MetadataAdmin.__init__ c env e name kwargs in
  let url := Dict.filter_keys (PyStr.contains "url") (_metadata o) in
  with_metadata o (Dict.update url (_metadata o)).

End MetadataAdminURL.

Module MetadataDesc.

Definition __init__ (c : klass) (e : entity) (name : string)
  (kwargs : Dict.t value) : metadata_object :=
  let o := AbstractMetadata.__init__ c e name kwargs in
  let o := store "type" (VStr "") o in
  let o := store "category" (VStr "") o in
  let o := store "title" (VStr "") o in
  let o := store "description_short" (VStr "") o in
  let o := store "description" (VStr "") o in
  let o := store "class" (VStr (class_name e)) o in
  store "version" (VStr "0.1.0") o.

End MetadataDesc.

Module MetadataDescDataCollection.

Definition _reset : M metadata_object unit :=
  AbstractMetadata.setitem "n_members" (VInt 0) ;;
  AbstractMetadata.setitem "n_members_datacollection" (VInt 0) ;;
  AbstractMetadata.setitem "n_members_dataset" (VInt 0).

Definition __init__ (c : klass) (e : entity) (name : string)
  (kwargs : Dict.t value) : metadata_object :=
  let o := MetadataDesc.__init__ c e name kwargs in
  self (snd (_reset (World o []))).

(** The body of the loop over the member mapping. *)
Definition count_member (kv : string * entity) : M metadata_object unit :=
  AbstractMetadata.increment "n_members" ;;
  if String.eqb (class_name (snd kv)) "DataCollection" then
    AbstractMetadata.increment "n_members_datacollection"
  else
    AbstractMetadata.increment "n_members_dataset".

(** [update(self, event=None)] *)
Definition update (event : value) : M metadata_object unit :=
  _reset ;;
  o <- get_self ;;
  for_each (entity_get (_entity o)) count_member.

End MetadataDescDataCollection.

Module MetadataTech.

Definition _format_metadata (env : environ) : M metadata_object unit :=
  let uname := uname env in
  let svmem := virtual_memory env in
  o <- get_self ;;
  AbstractMetadata.setitem "system" (VStr (system uname)) ;;
  AbstractMetadata.setitem "node" (VStr (node uname)) ;;
  AbstractMetadata.setitem "release" (VStr (release uname)) ;;
  AbstractMetadata.setitem "version" (VStr (version uname)) ;;
  AbstractMetadata.setitem "machine" (VStr (machine uname)) ;;
  AbstractMetadata.setitem "processor" (VStr (processor uname)) ;;
  AbstractMetadata.setitem "release" (VStr (release uname)) ;;
  AbstractMetadata.setitem "physical_cores" (cpu_count env false) ;;
  AbstractMetadata.setitem "total_cores" (cpu_count env true) ;;
  AbstractMetadata.setitem "total_memory" (scale_number env (total svmem)) ;;
  AbstractMetadata.setitem "available_memory"
    (scale_number env (available svmem)) ;;
  AbstractMetadata.setitem "used_memory" (scale_number env (used svmem)) ;;
  AbstractMetadata.setitem "pct_memory_used" (percent svmem) ;;
  AbstractMetadata.setitem "object_size" (VInt (getsizeof env (_entity o))).

Definition __init__ (c : klass) (env : environ) (e : entity) (name : string)
  (kwargs : Dict.t value) : metadata_object :=
  let o := AbstractMetadata.__init__ c e name kwargs in
  self (snd (_format_metadata env (World o []))).

(** [update_metadata(self, event=None)]: "Updates metadata and increments
    the number of updates." *)
Definition update_metadata (env : environ) (event : value) :
  M metadata_object unit :=
  _format_metadata env ;;
  AbstractMetadata.update VNone.

End MetadataTech.

Module MetadataTechRDBMS.

Definition _params : list string :=
  ["database"; "user"; "password"; "host"; "port"].

(** The filter runs over [kwargs]. *)
Definition __init__ (c : klass) (env : environ) (e : entity) (name : string)
  (kwargs : Dict.t value) : metadata_object :=
  let o := MetadataTech.__init__ c env e name kwargs in
  let rdbms_params :=
    Dict.filter_keys (fun k => existsb (String.eqb k) _params) kwargs in
  with_metadata o (Dict.update rdbms_params (_metadata o)).

End MetadataTechRDBMS.

Module MetadataProcess.

(** [self._name] *)
Definition getattr_name : M metadata_object string :=
  o <- get_self ;;
  match _name o with
  | Some n => ret n
  | None => raise (AttributeError "_name")
  end.

(** [self._metadata['log'].append(msg)] *)
Definition log_append (msg : string) : M metadata_object unit :=
  v <- AbstractMetadata.getitem "log" ;;
  match v with
  | VList l => AbstractMetadata.setitem "log" (VList (l ++ [msg])%list)
  | _ => raise (AttributeError "append")
  end.

(** The line the constructor logs. *)
Definition instantiated_msg (env : environ) (e : entity) (name : string) :
  string :=
  let user := getlogin env in
  let date_formatted := strftime_c env in
  let classname := class_name e in
  classname ++ " object named '" ++ name ++ "' was instantiated " ++
  " at " ++ date_formatted ++ " by " ++ user ++ ".".

Definition __init__ (c : klass) (env : environ) (e : entity) (name : string)
  (kwargs : Dict.t value) : metadata_object :=
  let o := AbstractMetadata.__init__ c e name kwargs in
  self (snd ((AbstractMetadata.setitem "log" (VList []) ;;
              log_append (instantiated_msg env e name)) (World o []))).

(** [update(self, event=None)]: the message is built before [event] is
    tested. *)
Definition update (env : environ) (event : value) : M metadata_object unit :=
  let user := getlogin env in
  let date_formatted := strftime_c env in
  o <- get_self ;;
  let classname := class_name (_entity o) in
  name <- getattr_name ;;
  ev <- lift (str_operand event) ;;
  let msg := "Class : " ++ classname ++ "Name : " ++ name ++
             "Date : " ++ date_formatted ++ "Event : " ++ ev in
  if truthy event then log_append msg else ret tt.

(** [print(self)]: one line per element of the log; a string in its
    place is iterated character by character, any other value is not
    iterable. *)
Definition print : M metadata_object unit :=
  v <- AbstractMetadata.getitem "log" ;;
  match v with
  | VList l => for_each l (fun e => print e)
  | VStr s =>
      for_each (map (fun c => String c EmptyString) (list_ascii_of_string s))
        (fun e => print e)
  | VNone | VBool _ | VInt _ => raise TypeError
  end.

(** [MetadataProcess(entity, name, **kwargs)] in a process that may lack
    a controlling terminal: the constructor reads [os.getlogin()]. *)
Definition construct (rt : runtime) (c : klass) (e : entity) (name : string)
  (kwargs : Dict.t value) : outcome metadata_object :=
  if has_terminal rt then Return (__init__ c (ambient rt) e name kwargs)
  else Raise OSError.

(** [update(self, event=None)] in such a process: [os.getlogin()] is its
    first statement. *)
Definition update_in (rt : runtime) (event : value) :
  M metadata_object unit :=
  user <- os_getlogin rt ;;
  update (ambient rt) event.

End MetadataProcess.

(** [record.update(event)]: the method the record's class resolves to. *)
Definition update (env : environ) (event : value) : M metadata_object unit :=
  fun w =>
    match cls (self w) with
    | MetadataAdmin | MetadataAdminFile | MetadataAdminURL =>
        MetadataAdmin.update env event w
    | MetadataDescDataCollection =>
        MetadataDescDataCollection.update event w
    | MetadataProcess => MetadataProcess.update env event w
    | MetadataDesc | MetadataTech | MetadataTechFile | MetadataTechRDBMS =>
        AbstractMetadata.update event w
    end.

(** [record.update(event)] in a process that may lack a controlling
    terminal. *)
Definition update_in (rt : runtime) (event : value) : M metadata_object unit :=
  fun w =>
    match cls (self w) with
    | MetadataAdmin | MetadataAdminFile | MetadataAdminURL =>
        MetadataAdmin.update_in rt event w
    | MetadataDescDataCollection =>
        MetadataDescDataCollection.update event w
    | MetadataProcess => MetadataProcess.update_in rt event w
    | MetadataDesc | MetadataTech | MetadataTechFile | MetadataTechRDBMS =>
        AbstractMetadata.update event w
    end.

(* ------------------------------------------------------------------ *)
(** ** The taxonomy container *)
(* ------------------------------------------------------------------ *)

(** The [_metadata] dictionary of a [Metadata] object. *)
Definition taxonomy : Type := Dict.t metadata_object.

(** What [Metadata.get] hands back: one record, or the whole mapping. *)
Inductive taxonomy_got : Type :=
| Record_ (o : metadata_object)
| Whole (d : taxonomy).

(** Truth value of a metadata object: the classes define neither
    [__bool__] nor [__len__], so every instance is truthy. *)
Definition object_truthy (o : metadata_object) : bool := true.

Module Metadata.

Definition __init__ : taxonomy := Dict.empty.

(** [add(self, metadata)] *)
Definition add (metadata : metadata_object) : M taxonomy unit :=
  d <- get_self ;;
  put_self (Dict.set (PyStr.lower (metadata_type metadata)) metadata d).

(** The test of the generator in [get] and [print]. *)
Definition matches (metadata_type k : string) : bool :=
  PyStr.contains (PyStr.lower metadata_type) (PyStr.lower k).

(** [get(self, metadata_type=None)]: [next] has no default, so an
    exhausted generator raises [StopIteration]. *)
Definition get (metadata_type : option string) : M taxonomy taxonomy_got :=
  d <- get_self ;;
  match metadata_type with
  | None => ret (Whole d)
  | Some t =>
      match Dict.first_match (matches t) d with
      | None => raise StopIteration
      | Some metadata =>
          if object_truthy metadata then ret (Record_ metadata)
          else raise (KeyError
            ("No metadata type matching '" ++ t ++
             "'.                     Run the 'print_types' method for a list of supported                         metadata types."))
      end
  end.

(** [print_types(self)] *)
Definition print_types : M taxonomy unit :=
  d <- get_self ;;
  for_each (Dict.keys d) (fun k => print k).

End Metadata.

(* ------------------------------------------------------------------ *)
(** ** Factories *)
(* ------------------------------------------------------------------ *)

Module AbstractMetadataFactory.

(** A factory object; [None] in [_addl_params] is an attribute that was
    never assigned. *)
Record factory : Type := Factory {
  _entity : entity;
  _name : string;
  _addl_params : option (Dict.t value);
  _metadata : taxonomy
}.

(** [__init__(self, entity, name, **kwargs)] *)
Definition __init__ (e : entity) (name : string) (kwargs : Dict.t value) :
  factory :=
  Factory e name (Some (Dict.update kwargs Dict.empty)) Metadata.__init__.

Definition _reset : M factory unit :=
  f <- get_self ;;
  put_self (Factory (_entity f) (_name f) (_addl_params f) Metadata.__init__).

(** The [metadata] property. *)
Definition metadata : M factory taxonomy :=
  f <- get_self ;;
  let metadata := _metadata f in
  _reset ;;
  ret metadata.

(** [self._addl_params] *)
Definition getattr_addl_params : M factory (Dict.t value) :=
  f <- get_self ;;
  match _addl_params f with
  | Some kw => ret kw
  | None => raise (AttributeError "_addl_params")
  end.

(** [self._metadata.add(record)] *)
Definition metadata_add (record : metadata_object) : M factory unit :=
  fun w =>
    let f := self w in
    match Metadata.add record (World (_metadata f) (stdout w)) with
    | (r, w') =>
        (r, World (Factory (_entity f) (_name f) (_addl_params f) (self w'))
                  (stdout w'))
    end.

End AbstractMetadataFactory.

Module MetadataRemoteFactory.
Import AbstractMetadataFactory.

(** [__init__(self, entity, name)]: takes no keyword arguments and does
    not assign [_addl_params]. *)
Definition __init__ (e : entity) (name : string) : factory :=
  Factory e name None Metadata.__init__.

Definition create_admin (env : environ) : M factory unit :=
  f <- get_self ;;
  kwargs <- getattr_addl_params ;;
  let admin :=
    MetadataAdminURL.__init__ MetadataAdminURL env (_entity f) (_name f)
      kwargs in
  metadata_add admin.

Definition create_desc (env : environ) : M factory unit :=
  f <- get_self ;;
  kwargs <- getattr_addl_params ;;
  let desc := MetadataDesc.__init__ MetadataDesc (_entity f) (_name f) kwargs in
  metadata_add desc.

Definition create_tech (env : environ) : M factory unit :=
  f <- get_self ;;
  kwargs <- getattr_addl_params ;;
  let tech :=
    MetadataTech.__init__ MetadataTech env (_entity f) (_name f) kwargs in
  metadata_add tech.

Definition create_process (env : environ) : M factory unit :=
  f <- get_self ;;
  kwargs <- getattr_addl_params ;;
  let process :=
    MetadataProcess.__init__ MetadataProcess env (_entity f) (_name f)
      kwargs in
  metadata_add process.

End MetadataRemoteFactory.

Module MetadataEntityFactory.
Import AbstractMetadataFactory.

Definition __init__ (e : entity) (name : string) (kwargs : Dict.t value) :
  factory :=
  AbstractMetadataFactory.__init__ e name kwargs.

Definition create_admin (env : environ) : M factory unit :=
  f <- get_self ;;
  kwargs <- getattr_addl_params ;;
  let admin :=
    MetadataAdmin.__init__ MetadataAdmin env (_entity f) (_name f) kwargs in
  metadata_add admin.

Definition create_desc (env : environ) : M factory unit :=
  f <- get_self ;;
  kwargs <- getattr_addl_params ;;
  let desc := MetadataDesc.__init__ MetadataDesc (_entity f) (_name f) kwargs in
  metadata_add desc.

Definition create_tech (env : environ) : M factory unit :=
  f <- get_self ;;
  kwargs <- getattr_addl_params ;;
  let tech :=
    MetadataTech.__init__ MetadataTech env (_entity f) (_name f) kwargs in
  metadata_add tech.

Definition create_process (env : environ) : M factory unit :=
  f <- get_self ;;
  kwargs <- getattr_addl_params ;;
  let process :=
    MetadataProcess.__init__ MetadataProcess env (_entity f) (_name f)
      kwargs in
  metadata_add process.

(** [create_admin] and [create_process] in a process that may lack a
    controlling terminal: the constructor can raise before anything is
    added. *)
Definition create_admin_in (rt : runtime) : M factory unit :=
  f <- get_self ;;
  kwargs <- getattr_addl_params ;;
  admin <- lift (MetadataAdmin.construct rt MetadataAdmin (_entity f)
                   (_name f) kwargs) ;;
  metadata_add admin.

Definition create_process_in (rt : runtime) : M factory unit :=
  f <- get_self ;;
  kwargs <- getattr_addl_params ;;
  process <- lift (MetadataProcess.construct rt MetadataProcess (_entity f)
                     (_name f) kwargs) ;;
  metadata_add process.

End MetadataEntityFactory.

Module MetadataDataCollectionFactory.
Import AbstractMetadataFactory.

Definition __init__ (e : entity) (name : string) (kwargs : Dict.t value) :
  factory :=
  AbstractMetadataFactory.__init__ e name kwargs.

Definition create_admin (env : environ) : M factory unit :=
  f <- get_self ;;
  kwargs <- getattr_addl_params ;;
  let admin :=
    MetadataAdmin.__init__ MetadataAdmin env (_entity f) (_name f) kwargs in
  metadata_add admin.

(** The descriptive record of a collection is the counting one. *)
Definition create_desc (env : environ) : M factory unit :=
  f <- get_self ;;
  kwargs <- getattr_addl_params ;;
  let desc :=
    MetadataDescDataCollection.__init__ MetadataDescDataCollection
      (_entity f) (_name f) kwargs in
  metadata_add desc.

Definition create_tech (env : environ) : M factory unit :=
  f <- get_self ;;
  kwargs <- getattr_addl_params ;;
  let tech :=
    MetadataTech.__init__ MetadataTech env (_entity f) (_name f) kwargs in
  metadata_add tech.

Definition create_process (env : environ) : M factory unit :=
  f <- get_self ;;
  kwargs <- getattr_addl_params ;;
  let process :=
    MetadataProcess.__init__ MetadataProcess env (_entity f) (_name f)
      kwargs in
  metadata_add process.

(** [create_admin] and [create_process] in a process that may lack a
    controlling terminal: the constructor can raise before anything is
    added. *)
Definition create_admin_in (rt : runtime) : M factory unit :=
  f <- get_self ;;
  kwargs <- getattr_addl_params ;;
  admin <- lift (MetadataAdmin.construct rt MetadataAdmin (_entity f)
                   (_name f) kwargs) ;;
  metadata_add admin.

Definition create_process_in (rt : runtime) : M factory unit :=
  f <- get_self ;;
  kwargs <- getattr_addl_params ;;
  process <- lift (MetadataProcess.construct rt MetadataProcess (_entity f)
                     (_name f) kwargs) ;;
  metadata_add process.

End MetadataDataCollectionFactory.

(* ------------------------------------------------------------------ *)
(** ** Vocabulary of the properties *)
(* ------------------------------------------------------------------ *)

(** [m] leaves attribute [k] of the record, its class and its entity as
    they were, whether it returns or raises. *)
Definition preserves {A} (k : string) (m : M metadata_object A) : Prop :=
  forall w,
    Dict.get k (_metadata (self (snd (m w)))) =
      Dict.get k (_metadata (self w)) /\
    cls (self (snd (m w))) = cls (self w) /\
    _entity (self (snd (m w))) = _entity (self w).

(** A member that is itself a collection, as [update] tells it. *)
Definition is_datacollection (kv : string * entity) : bool :=
  String.eqb (class_name (snd kv)) "DataCollection".

(** M: the members that are collections; N: the members that are not. *)
Definition count_collections (ms : list (string * entity)) : nat :=
  List.length (filter is_datacollection ms).

Definition count_datasets (ms : list (string * entity)) : nat :=
  List.length (filter (fun kv => negb (is_datacollection kv)) ms).

(** The kinds of the stored records, in the container's order. *)
Definition kinds (t : taxonomy) : list kind :=
  map (fun kr => kind_of (cls (snd kr))) t.

(** Every record sits under its own lower-cased kind name. *)
Definition keyed_by_kind (t : taxonomy) : Prop :=
  Forall (fun kr => fst kr = PyStr.lower (metadata_type (snd kr))) t.

(** The invariant of the taxonomy: at most one record per kind, each
    under the key of its kind. *)
Definition taxonomy_inv (t : taxonomy) : Prop :=
  NoDup (kinds t) /\ keyed_by_kind t.

(** The attribute keys of the record are pairwise distinct, as the keys of
    a dictionary are. *)
Definition unique_keys (w : world metadata_object) : Prop :=
  NoDup (Dict.keys (_metadata (self w))).

(** The taxonomy a factory has assembled so far. *)
Definition built (w : world AbstractMetadataFactory.factory) : taxonomy :=
  AbstractMetadataFactory._metadata (self w).

(** The record class each builder creates for a kind. *)
Definition entity_table (K : kind) : klass :=
  match K with
  | Administrative => MetadataAdmin
  | Descriptive => MetadataDesc
  | Technical => MetadataTech
  | Process => MetadataProcess
  end.

Definition collection_table (K : kind) : klass :=
  match K with
  | Administrative => MetadataAdmin
  | Descriptive => MetadataDescDataCollection
  | Technical => MetadataTech
  | Process => MetadataProcess
  end.

(** Every stored record has the class the table gives for its kind. *)
Definition built_by (table : kind -> klass) (t : taxonomy) : Prop :=
  Forall (fun kr => cls (snd kr) = table (kind_of (cls (snd kr)))) t.

(** One creation step of a builder: the process of the call and the
    kind whose [create_...] method is called. *)
Definition entity_step (c : runtime * kind) :
  M AbstractMetadataFactory.factory unit :=
  match snd c with
  | Administrative => MetadataEntityFactory.create_admin_in (fst c)
  | Descriptive => MetadataEntityFactory.create_desc (ambient (fst c))
  | Technical => MetadataEntityFactory.create_tech (ambient (fst c))
  | Process => MetadataEntityFactory.create_process_in (fst c)
  end.

Definition collection_step (c : runtime * kind) :
  M AbstractMetadataFactory.factory unit :=
  match snd c with
  | Administrative => MetadataDataCollectionFactory.create_admin_in (fst c)
  | Descriptive => MetadataDataCollectionFactory.create_desc (ambient (fst c))
  | Technical => MetadataDataCollectionFactory.create_tech (ambient (fst c))
  | Process => MetadataDataCollectionFactory.create_process_in (fst c)
  end.

(** A step whose constructor does not need the login name, or that runs
    in a process that has one. *)
Definition can_create (c : runtime * kind) : bool :=
  match snd c with
  | Administrative | Process => has_terminal (fst c)
  | Descriptive | Technical => true
  end.

(** One creation step of the remote builder, which raises before any
    constructor runs. *)
Definition remote_step (c : environ * kind) :
  M AbstractMetadataFactory.factory unit :=
  match snd c with
  | Administrative => MetadataRemoteFactory.create_admin (fst c)
  | Descriptive => MetadataRemoteFactory.create_desc (fst c)
  | Technical => MetadataRemoteFactory.create_tech (fst c)
  | Process => MetadataRemoteFactory.create_process (fst c)
  end.

(** What a creation step that can create does on a factory that holds
    its keyword arguments: it stores one record, built from the
    factory's entity and name, under the record's kind. *)
Definition stores_record (table : kind -> klass)
  (step : runtime * kind -> M AbstractMetadataFactory.factory unit) : Prop :=
  forall c w kw,
    AbstractMetadataFactory._addl_params (self w) = Some kw ->
    can_create c = true ->
    exists r,
      cls r = table (snd c) /\
      _entity r = AbstractMetadataFactory._entity (self w) /\
      step c w =
        (Return tt,
         World (AbstractMetadataFactory.Factory
                  (AbstractMetadataFactory._entity (self w))
                  (AbstractMetadataFactory._name (self w))
                  (Some kw)
                  (Dict.set (PyStr.lower (metadata_type r)) r (built w)))
               (stdout w)).

(* ------------------------------------------------------------------ *)
(** ** Concrete entities, environments and records *)
(* ------------------------------------------------------------------ *)

(** The record and value used in the concrete instances below. *)
Definition dataset : entity := Entity "DataSet" [].

Definition collection : entity :=
  Entity "DataCollection"
    [("sf_listings", dataset);
     ("archive", Entity "DataCollection" [("old", dataset)]);
     ("nashville_listings", dataset)].

(** A concrete environment for the instances below. *)
Definition sample_env : environ := {|
  getlogin := "JJames";
  strftime_c := "Sun Feb 16 07:04:22 2020";
  now_year := 2020; now_month := 2; now_day := 16;
  now_hour := 7; now_minute := 4; now_second := 22;
  uuid4 := "6f1c2a9e-0b7d-4c55-9a3e-2d8f4b1c7e90";
  uname := {| system := "Linux"; node := "studio"; release := "5.4.0";
              version := "#1 SMP"; machine := "x86_64";
              processor := "x86_64" |};
  virtual_memory := {| total := 16000000000; available := 9000000000;
                       used := 7000000000; percent := VInt 44 |};
  cpu_count := fun logical => if logical then VInt 8 else VInt 4;
  scale_number := fun n => VStr (PyStr.str n);
  getsizeof := fun _ => 48
|}.

(** The same environment a little later, under another login. *)
Definition later_env : environ := {|
  getlogin := "Reviewer";
  strftime_c := "Mon Feb 17 09:30:00 2020";
  now_year := 2020; now_month := 2; now_day := 17;
  now_hour := 9; now_minute := 30; now_second := 0;
  uuid4 := uuid4 sample_env;
  uname := uname sample_env;
  virtual_memory := virtual_memory sample_env;
  cpu_count := cpu_count sample_env;
  scale_number := scale_number sample_env;
  getsizeof := getsizeof sample_env
|}.

(** The first environment seen under an upper-case login. *)
Definition shouting_env : environ := {|
  getlogin := "JJAMES";
  strftime_c := strftime_c sample_env;
  now_year := 2020; now_month := 2; now_day := 16;
  now_hour := 7; now_minute := 4; now_second := 22;
  uuid4 := "0d9e6f5a-3c1b-4e7f-8a2d-5b6c7d8e9f00";
  uname := uname sample_env;
  virtual_memory := virtual_memory sample_env;
  cpu_count := cpu_count sample_env;
  scale_number := scale_number sample_env;
  getsizeof := getsizeof sample_env
|}.

(** A process with a controlling terminal, and one without. *)
Definition at_terminal (env : environ) : runtime :=
  {| ambient := env; has_terminal := true |}.

Definition headless (env : environ) : runtime :=
  {| ambient := env; has_terminal := false |}.

Definition blank : world metadata_object :=
  World (AbstractMetadata.__init__ MetadataDesc dataset "sf_listings" []) [].

Definition tech_record : world metadata_object :=
  World (MetadataTech.__init__ MetadataTech sample_env dataset "sf_listings"
           []) [].

Definition admin_record : world metadata_object :=
  World (MetadataAdmin.__init__ MetadataAdmin sample_env dataset
           "SF_Listings" []) [].

(** A collection record whose counters are stale. *)
Definition collection_record : world metadata_object :=
  World (store "n_members" (VInt 40)
           (MetadataDescDataCollection.__init__ MetadataDescDataCollection
              collection "listings" [])) [].

Definition desc_record (title : string) : metadata_object :=
  store "title" (VStr title)
    (MetadataDesc.__init__ MetadataDesc dataset "sf_listings" []).

(* ================================================================== *)
(** * Properties *)
(* ================================================================== *)

(** ** Dictionaries *)

Section DictFacts.
Variable V : Type.
Implicit Types (d : Dict.t V) (k : string) (v : V).

Lemma get_set_same k v d : Dict.get k (Dict.set k v d) = Some v.
Proof.
  induction d as [|[k' v'] d IH]; simpl.
  - now rewrite String.eqb_refl.
  - destruct (String.eqb k k') eqn:E; simpl; rewrite E; auto.
Qed.

Lemma get_set_other k k' v d :
  k <> k' -> Dict.get k (Dict.set k' v d) = Dict.get k d.
Proof.
  intros Hne. induction d as [|[k0 v0] d IH]; simpl.
  - destruct (String.eqb k k') eqn:E; auto.
    apply String.eqb_eq in E. contradiction.
  - destruct (String.eqb k' k0) eqn:E'; simpl.
    + apply String.eqb_eq in E'. subst k0.
      apply String.eqb_neq in Hne. now rewrite Hne.
    + now rewrite IH.
Qed.

Lemma mem_false_get k d : Dict.mem k d = false <-> Dict.get k d = None.
Proof. unfold Dict.mem. destruct (Dict.get k d); split; congruence. Qed.

Lemma mem_set_same k v d : Dict.mem k (Dict.set k v d) = true.
Proof. unfold Dict.mem. now rewrite get_set_same. Qed.

Lemma get_none_not_in k d : Dict.get k d = None <-> ~ In k (Dict.keys d).
Proof.
  induction d as [|[k' v'] d IH]; simpl.
  - tauto.
  - destruct (String.eqb k k') eqn:E.
    + apply String.eqb_eq in E. subst. split; [discriminate|]. tauto.
    + apply String.eqb_neq in E. rewrite IH. split.
      * intros H [H1|H1]; [now subst|tauto].
      * tauto.
Qed.

(** Storing under a key that is absent appends the item; storing under a
    key that is present replaces the value where the key stands. *)
Lemma set_absent k v d :
  Dict.get k d = None -> Dict.set k v d = (d ++ [(k, v)])%list.
Proof.
  induction d as [|[k' v'] d IH]; simpl; auto.
  destruct (String.eqb k k'); [discriminate|].
  intros H. now rewrite IH.
Qed.

Lemma set_present k v d :
  Dict.get k d <> None ->
  exists d1 v0 d2,
    d = (d1 ++ (k, v0) :: d2)%list /\
    Dict.set k v d = (d1 ++ (k, v) :: d2)%list.
Proof.
  induction d as [|[k' v'] d IH]; simpl; [congruence|].
  destruct (String.eqb k k') eqn:E.
  - apply String.eqb_eq in E. subst k'. intros _.
    now exists [], v', d.
  - intros H. destruct (IH H) as (d1 & v0 & d2 & -> & ->).
    now exists ((k', v') :: d1), v0, d2.
Qed.

Lemma get_cons k k' v d :
  Dict.get k ((k', v) :: d) =
    if String.eqb k k' then Some v else Dict.get k d.
Proof. reflexivity. Qed.

Lemma first_match_cons (p : string -> bool) k v d :
  Dict.first_match p ((k, v) :: d) =
    if p k then Some v else Dict.first_match p d.
Proof. reflexivity. Qed.

(** Storing under a key that is present adds no entry. *)
Lemma keys_set_present k v d :
  Dict.get k d <> None -> Dict.keys (Dict.set k v d) = Dict.keys d.
Proof.
  intros H. destruct (@set_present k v d H) as (d1 & v0 & d2 & Hd & Hs).
  rewrite Hs, Hd. unfold Dict.keys. now rewrite !map_app.
Qed.

Lemma first_match_none (p : string -> bool) d :
  Dict.first_match p d = None <-> forall k, In k (Dict.keys d) -> p k = false.
Proof.
  induction d as [|[k' v'] d IH]; simpl.
  - split; [intros _ k []|auto].
  - destruct (p k') eqn:E.
    + split; [discriminate|]. intros H. rewrite (H k') in E; [discriminate|auto].
    + rewrite IH. split.
      * intros H k [<-|Hk]; auto.
      * intros H k Hk. apply H. auto.
Qed.

End DictFacts.

(** ** Frame reasoning for record methods *)

Lemma preserves_ret {A} k (a : A) : preserves k (ret a).
Proof. intros w. simpl. auto. Qed.

Lemma preserves_raise {A} k e : preserves k (@raise metadata_object A e).
Proof. intros w. simpl. auto. Qed.

Lemma preserves_lift {A} k (r : outcome A) : preserves k (lift r).
Proof. intros w. simpl. auto. Qed.

Lemma preserves_get_self k : preserves k get_self.
Proof. intros w. simpl. auto. Qed.

Lemma preserves_bind {A B} k (m : M metadata_object A)
  (f : A -> M metadata_object B) :
  preserves k m -> (forall a, preserves k (f a)) -> preserves k (bind m f).
Proof.
  intros Hm Hf w. unfold bind. specialize (Hm w).
  destruct (m w) as [[a|e] w1]; simpl in *; auto.
  destruct (Hf a w1) as (H1 & H2 & H3). destruct Hm as (H4 & H5 & H6).
  repeat split; congruence.
Qed.

Lemma preserves_setitem k key v :
  k <> key -> preserves k (AbstractMetadata.setitem key v).
Proof.
  intros Hne w. unfold AbstractMetadata.setitem, bind, get_self, put_self.
  simpl. now rewrite get_set_other.
Qed.

Lemma preserves_getitem k key : preserves k (AbstractMetadata.getitem key).
Proof.
  intros w. unfold AbstractMetadata.getitem, bind, get_self. simpl.
  destruct (Dict.get key (_metadata (self w))); simpl; auto.
Qed.

Lemma preserves_increment k key :
  k <> key -> preserves k (AbstractMetadata.increment key).
Proof.
  intros Hne. unfold AbstractMetadata.increment.
  apply preserves_bind; [apply preserves_getitem|]. intros v.
  apply preserves_bind; [apply preserves_lift|]. intros v'.
  now apply preserves_setitem.
Qed.

(** ** The attribute store: add, get, change, remove *)

Lemma world_eta {O} (w : world O) : World (self w) (stdout w) = w.
Proof. now destruct w. Qed.

Lemma with_metadata_same o : with_metadata o (_metadata o) = o.
Proof. now destruct o. Qed.

Lemma truthy_nonempty k : k <> "" -> PyStr.truthy k = true.
Proof. destruct k; simpl; congruence. Qed.

(** [add] on an absent key returns and stores the value under the key. *)
Lemma add_absent k v w :
  Dict.mem k (_metadata (self w)) = false ->
  AbstractMetadata.add k v w =
    (Return tt,
     World (with_metadata (self w) (Dict.set k v (_metadata (self w))))
           (stdout w)).
Proof.
  intros H. unfold AbstractMetadata.add, AbstractMetadata.setitem, bind,
    get_self, put_self. simpl. now rewrite H.
Qed.

(** [add] on a present key raises and changes nothing. *)
Lemma add_present k v w :
  Dict.mem k (_metadata (self w)) = true ->
  AbstractMetadata.add k v w =
    (Raise (ValueError ("Key " ++ k ++ " already exists.")), w).
Proof.
  intros H. unfold AbstractMetadata.add, bind, get_self, raise. simpl.
  now rewrite H.
Qed.

(** [get] with a non-empty key that is present returns its value. *)
Lemma get_present k v w :
  k <> "" -> Dict.get k (_metadata (self w)) = Some v ->
  AbstractMetadata.get (Some k) w = (Return (Value v), w).
Proof.
  intros Hk H. unfold AbstractMetadata.get, bind, get_self, ret. simpl.
  rewrite (truthy_nonempty Hk). unfold Dict.mem. now rewrite H.
Qed.

(** C1, amended to non-empty keys: for every record, every non-empty key
    [k] absent from its attributes and every value [v], [add(k, v)]
    returns and a following [get(k)] returns [v]; every second
    [add(k, v')] raises the duplicate-key [ValueError] and leaves the
    record as it was, so [get(k)] still returns [v]. *)
Theorem add_then_get w k v v' :
  k <> "" ->
  Dict.mem k (_metadata (self w)) = false ->
  let w1 := snd (AbstractMetadata.add k v w) in
  fst (AbstractMetadata.add k v w) = Return tt /\
  AbstractMetadata.get (Some k) w1 = (Return (Value v), w1) /\
  AbstractMetadata.add k v' w1 =
    (Raise (ValueError ("Key " ++ k ++ " already exists.")), w1) /\
  AbstractMetadata.get (Some k) (snd (AbstractMetadata.add k v' w1)) =
    (Return (Value v), w1).
Proof.
  intros Hk Habs. rewrite (add_absent _ _ _ Habs). cbn zeta. simpl fst.
  simpl snd.
  set (w1 := World _ _).
  assert (Hget : Dict.get k (_metadata (self w1)) = Some v)
    by (unfold w1; simpl; apply get_set_same).
  assert (Hmem : Dict.mem k (_metadata (self w1)) = true)
    by (unfold Dict.mem; now rewrite Hget).
  rewrite (add_present _ _ _ Hmem). simpl snd.
  rewrite (get_present _ Hk Hget). auto.
Qed.

Lemma add_then_get_witness :
  let w1 := snd (AbstractMetadata.add "title" (VStr "Listings") blank) in
  fst (AbstractMetadata.add "title" (VStr "Listings") blank) = Return tt /\
  AbstractMetadata.get (Some "title") w1 = (Return (Value (VStr "Listings")), w1) /\
  AbstractMetadata.add "title" (VInt 3) w1 =
    (Raise (ValueError ("Key " ++ "title" ++ " already exists.")), w1) /\
  AbstractMetadata.get (Some "title")
      (snd (AbstractMetadata.add "title" (VInt 3) w1)) =
    (Return (Value (VStr "Listings")), w1).
Proof.
  apply (@add_then_get blank "title" (VStr "Listings") (VInt 3)).
  - discriminate.
  - reflexivity.
Defined.

(** C1 as stated fails at the empty key: on a record without attributes,
    [add("", 1)] followed by [get("")] returns the whole mapping, not the
    value. *)
Lemma add_then_get_empty_key_counterexample :
  ~ (forall w k v,
       Dict.mem k (_metadata (self w)) = false ->
       fst (AbstractMetadata.get (Some k)
              (snd (AbstractMetadata.add k v w))) = Return (Value v)).
Proof.
  intros H. specialize (H blank "" (VInt 1) eq_refl). discriminate H.
Qed.

(** C10: a key that is given but falsy (the empty string) is not looked
    up: [get] returns the copy of the whole mapping, as it does without a
    key, raises nothing and leaves the record as it was. *)
Theorem get_falsy_key w k :
  PyStr.truthy k = false ->
  AbstractMetadata.get (Some k) w =
    (Return (Mapping (_metadata (self w))), w) /\
  AbstractMetadata.get (Some k) w = AbstractMetadata.get None w.
Proof.
  intros H. unfold AbstractMetadata.get, bind, get_self, ret. simpl.
  now rewrite H.
Qed.

Lemma get_falsy_key_witness :
  AbstractMetadata.get (Some "") blank =
    (Return (Mapping (_metadata (self blank))), blank) /\
  AbstractMetadata.get (Some "") blank = AbstractMetadata.get None blank.
Proof. apply (@get_falsy_key blank ""). reflexivity. Defined.

(** C2, amended to non-empty keys for [get]: for every record and every
    key [k] absent from its attributes, [get(k)] with [k] non-empty and
    [change(k, v)] raise [KeyError] and leave the record as it was, and
    [remove(k)] returns, having printed one line and left the record as
    it was. *)
Theorem missing_key w k v :
  Dict.mem k (_metadata (self w)) = false ->
  (k <> "" ->
   AbstractMetadata.get (Some k) w =
     (Raise (KeyError ("Key, '" ++ k ++ "', does not exist.")), w)) /\
  AbstractMetadata.change k v w =
    (Raise (KeyError ("Key " ++ k ++ " does not exist.")), w) /\
  AbstractMetadata.remove k w =
    (Return tt,
     World (self w) (stdout w ++ [("Key " ++ k ++ " does not exist.")%string])%list).
Proof.
  intros H. repeat split.
  - intros Hk. unfold AbstractMetadata.get, bind, get_self, raise. simpl.
    now rewrite (truthy_nonempty Hk), H.
  - unfold AbstractMetadata.change, bind, get_self, raise. simpl.
    now rewrite H.
  - unfold AbstractMetadata.remove, bind, get_self, print. simpl.
    now rewrite H.
Qed.

Lemma missing_key_witness :
  ("owner" <> "" ->
   AbstractMetadata.get (Some "owner") blank =
     (Raise (KeyError ("Key, '" ++ "owner" ++ "', does not exist.")), blank)) /\
  AbstractMetadata.change "owner" (VStr "jj") blank =
    (Raise (KeyError ("Key " ++ "owner" ++ " does not exist.")), blank) /\
  AbstractMetadata.remove "owner" blank =
    (Return tt,
     World (self blank)
       (stdout blank ++ [("Key " ++ "owner" ++ " does not exist.")%string])%list).
Proof. apply (@missing_key blank "owner" (VStr "jj")). reflexivity. Defined.

(** C2 as stated fails at the empty key: on a record without attributes
    [get("")] raises nothing. *)
Lemma get_missing_empty_key_counterexample :
  ~ (forall w k,
       Dict.mem k (_metadata (self w)) = false ->
       exists msg, fst (AbstractMetadata.get (Some k) w) = Raise (KeyError msg)).
Proof.
  intros H. destruct (H blank "" eq_refl) as [msg Hmsg]. discriminate Hmsg.
Qed.

(** ** Administrative records: what [update] rewrites *)

Lemma admin_update_preserves env event k :
  k <> "modified" -> k <> "modifier" -> k <> "updates" ->
  preserves k (MetadataAdmin.update env event).
Proof.
  intros H1 H2 H3. unfold MetadataAdmin.update, AbstractMetadata.update.
  apply preserves_bind; [now apply preserves_increment|intros _].
  apply preserves_bind; [now apply preserves_setitem|intros _].
  apply preserves_bind; [now apply preserves_setitem|intros _].
  now apply preserves_increment.
Qed.

(** When the administrative update returns, modifier and modified hold
    the login name and the time of the call. *)
Lemma admin_update_rewrites env event w :
  fst (MetadataAdmin.update env event w) = Return tt ->
  let d' := _metadata (self (snd (MetadataAdmin.update env event w))) in
  Dict.get "modifier" d' = Some (VStr (getlogin env)) /\
  Dict.get "modified" d' = Some (VStr (strftime_c env)) /\
  Dict.get "updates" d' <> None.
Proof.
  unfold MetadataAdmin.update, AbstractMetadata.update,
    AbstractMetadata.increment, AbstractMetadata.getitem,
    AbstractMetadata.setitem, bind, get_self, put_self, lift, ret, raise.
  simpl.
  destruct (Dict.get "updates" (_metadata (self w))) as [v|]; simpl;
    [|discriminate].
  destruct (add_one v) as [v1|]; simpl; [|discriminate].
  rewrite !get_set_other, get_set_same by discriminate. simpl.
  destruct (add_one v1) as [v2|]; simpl; [|discriminate].
  intros _.
  rewrite !get_set_other, !get_set_same by discriminate.
  rewrite get_set_other, get_set_same by discriminate.
  repeat split; congruence.
Qed.

(** An administrative update in a process with a terminal, on an
    integer counter: it returns, having counted two. *)
Lemma admin_update_counts env event w n :
  Dict.get "updates" (_metadata (self w)) = Some (VInt n) ->
  fst (MetadataAdmin.update env event w) = Return tt /\
  Dict.get "updates"
    (_metadata (self (snd (MetadataAdmin.update env event w)))) =
    Some (VInt (n + 2)) /\
  stdout (snd (MetadataAdmin.update env event w)) = stdout w.
Proof.
  intros H.
  unfold MetadataAdmin.update, AbstractMetadata.update,
    AbstractMetadata.increment, AbstractMetadata.getitem,
    AbstractMetadata.setitem, bind, get_self, put_self, lift, ret, raise.
  cbn [self stdout fst snd _metadata with_metadata cls _entity _name].
  rewrite H.
  cbn [add_one self stdout fst snd _metadata with_metadata cls _entity _name].
  rewrite !get_set_other, get_set_same by discriminate.
  cbn [add_one self stdout fst snd _metadata with_metadata cls _entity _name].
  rewrite get_set_same. replace (n + 1 + 1) with (n + 2) by lia. auto.
Qed.

(** With a terminal, [os.getlogin()] returns and the call is the one the
    environment alone describes. *)
Lemma admin_update_in_terminal rt event w :
  has_terminal rt = true ->
  MetadataAdmin.update_in rt event w =
    MetadataAdmin.update (ambient rt) event w.
Proof.
  intros H. unfold MetadataAdmin.update_in, os_getlogin. rewrite H.
  reflexivity.
Qed.

(** Without one, the call ends in [OSError] right after the base update,
    unless that has raised already. *)
Lemma admin_update_in_headless rt event w :
  has_terminal rt = false ->
  MetadataAdmin.update_in rt event w =
    match AbstractMetadata.increment "updates" w with
    | (Return _, w1) => (Raise OSError, w1)
    | (Raise e, w1) => (Raise e, w1)
    end.
Proof.
  intros H. unfold MetadataAdmin.update_in, os_getlogin. rewrite H.
  unfold AbstractMetadata.update, bind at 1.
  destruct (AbstractMetadata.increment "updates" w) as [[[]|e] w1];
    reflexivity.
Qed.

Lemma update_in_admin_dispatch rt event w :
  kind_of (cls (self w)) = Administrative ->
  update_in rt event w = MetadataAdmin.update_in rt event w.
Proof.
  intros Hk. unfold update_in.
  destruct (cls (self w)); try reflexivity; discriminate.
Qed.

(** C5: on every Administrative record, whatever its attributes, a call
    to [update] leaves [id], [created], [objectname], [name] and
    [classname] (indeed every attribute other than [modified], [modifier]
    and [updates]), the class and the entity as they were, and it
    rewrites the other three: on an integer counter [n] the call returns
    with [updates = n + 2], [modifier] the current login name and
    [modified] the current time.  That is the call in a process with a
    controlling terminal; in a process without one [os.getlogin()] raises
    [OSError] after the base update has counted, so the call raises with
    [updates = n + 1] and every other attribute, [modifier] and
    [modified] included, as it was. *)
Theorem admin_update_frame env event w :
  kind_of (cls (self w)) = Administrative ->
  let w' := snd (update env event w) in
  let same k :=
    Dict.get k (_metadata (self w')) = Dict.get k (_metadata (self w)) in
  same "id" /\ same "created" /\ same "objectname" /\ same "name" /\
  same "classname" /\
  (forall k, k <> "modified" -> k <> "modifier" -> k <> "updates" -> same k) /\
  cls (self w') = cls (self w) /\
  _entity (self w') = _entity (self w) /\
  (fst (update env event w) = Return tt ->
   Dict.get "modifier" (_metadata (self w')) = Some (VStr (getlogin env)) /\
   Dict.get "modified" (_metadata (self w')) = Some (VStr (strftime_c env)) /\
   Dict.get "updates" (_metadata (self w')) <> None) /\
  (forall n,
     Dict.get "updates" (_metadata (self w)) = Some (VInt n) ->
     fst (update env event w) = Return tt /\
     Dict.get "updates" (_metadata (self w')) = Some (VInt (n + 2)) /\
     Dict.get "modifier" (_metadata (self w')) = Some (VStr (getlogin env)) /\
     Dict.get "modified" (_metadata (self w')) = Some (VStr (strftime_c env)) /\
     stdout w' = stdout w) /\
  (forall rt,
     ambient rt = env ->
     (has_terminal rt = true -> update_in rt event w = update env event w) /\
     (has_terminal rt = false ->
      let r := update_in rt event w in
      (forall k, k <> "updates" ->
         Dict.get k (_metadata (self (snd r))) =
           Dict.get k (_metadata (self w))) /\
      cls (self (snd r)) = cls (self w) /\
      _entity (self (snd r)) = _entity (self w) /\
      stdout (snd r) = stdout w /\
      (forall n,
         Dict.get "updates" (_metadata (self w)) = Some (VInt n) ->
         fst r = Raise OSError /\
         Dict.get "updates" (_metadata (self (snd r))) =
           Some (VInt (n + 1))))).
Proof.
  intros Hk.
  assert (Hu : update env event w = MetadataAdmin.update env event w).
  { unfold update. destruct (cls (self w)); try reflexivity; discriminate. }
  rewrite Hu. cbn zeta.
  assert (Hall : forall k,
    k <> "modified" -> k <> "modifier" -> k <> "updates" ->
    Dict.get k (_metadata (self (snd (MetadataAdmin.update env event w)))) =
      Dict.get k (_metadata (self w))).
  { intros k H1 H2 H3. apply (admin_update_preserves env event H1 H2 H3 w). }
  assert (Hrw := admin_update_rewrites env event w).
  split; [apply Hall; discriminate|].
  split; [apply Hall; discriminate|].
  split; [apply Hall; discriminate|].
  split; [apply Hall; discriminate|].
  split; [apply Hall; discriminate|].
  split; [exact Hall|].
  split; [apply (admin_update_preserves env event (k:="id")); discriminate|].
  split; [apply (admin_update_preserves env event (k:="id")); discriminate|].
  split; [exact Hrw|].
  split.
  - intros n Hn.
    destruct (admin_update_counts env event w Hn) as (Hret & Hcnt & Hout).
    destruct (Hrw Hret) as (Hm1 & Hm2 & _). auto.
  - intros rt Hrt. split.
    + intros Ht. rewrite (update_in_admin_dispatch rt event w Hk),
        (admin_update_in_terminal rt event w Ht), Hrt. reflexivity.
    + intros Ht. cbn zeta.
      rewrite (update_in_admin_dispatch rt event w Hk),
        (admin_update_in_headless rt event w Ht).
      assert (Hsnd : forall (r : outcome unit * world metadata_object),
        snd (match r with
             | (Return _, w1) => (Raise OSError, w1)
             | (Raise e, w1) => (Raise e, w1)
             end) = snd r) by (intros [[|] ?]; reflexivity).
      rewrite Hsnd. split; [|split; [|split; [|split]]].
      * intros k Hne. apply (preserves_increment Hne w).
      * apply (@preserves_increment "id" "updates"); discriminate.
      * apply (@preserves_increment "id" "updates"); discriminate.
      * unfold AbstractMetadata.increment, AbstractMetadata.getitem,
          AbstractMetadata.setitem, bind, get_self, put_self, lift, ret, raise.
        cbn [self stdout fst snd].
        destruct (Dict.get "updates" (_metadata (self w))) as [v|];
          [|reflexivity].
        destruct (add_one v); reflexivity.
      * intros n Hn.
        unfold AbstractMetadata.increment, AbstractMetadata.getitem,
          AbstractMetadata.setitem, bind, get_self, put_self, lift, ret, raise.
        cbn [self stdout fst snd]. rewrite Hn.
        cbn [add_one self stdout fst snd _metadata with_metadata].
        split; [reflexivity|apply get_set_same].
Qed.

Lemma admin_update_frame_witness :
  let w' := snd (update later_env VNone admin_record) in
  let r := update_in (headless later_env) VNone admin_record in
  Dict.get "id" (_metadata (self w')) =
    Dict.get "id" (_metadata (self admin_record)) /\
  Dict.get "objectname" (_metadata (self w')) =
    Dict.get "objectname" (_metadata (self admin_record)) /\
  fst (update later_env VNone admin_record) = Return tt /\
  Dict.get "updates" (_metadata (self w')) = Some (VInt (0 + 2)) /\
  Dict.get "modifier" (_metadata (self w')) = Some (VStr "Reviewer") /\
  Dict.get "modified" (_metadata (self w')) =
    Some (VStr "Mon Feb 17 09:30:00 2020") /\
  update_in (at_terminal later_env) VNone admin_record =
    update later_env VNone admin_record /\
  fst r = Raise OSError /\
  Dict.get "updates" (_metadata (self (snd r))) = Some (VInt (0 + 1)) /\
  Dict.get "modifier" (_metadata (self (snd r))) =
    Dict.get "modifier" (_metadata (self admin_record)).
Proof.
  destruct (@admin_update_frame later_env VNone admin_record eq_refl)
    as (Hid & _ & Hobj & _ & _ & _ & _ & _ & _ & Hint & Hrt).
  destruct (Hint 0 eq_refl) as (Hret & Hcnt & Hmod & Hmodt & _).
  destruct (Hrt (at_terminal later_env) eq_refl) as (Hterm & _).
  destruct (Hrt (headless later_env) eq_refl) as (_ & Hhead).
  destruct (Hhead eq_refl) as (Hfr & _ & _ & _ & Hn).
  destruct (Hn 0 eq_refl) as (Hraise & Hone).
  assert (Hne : "modifier" <> "updates") by discriminate.
  exact (conj Hid (conj Hobj (conj Hret (conj Hcnt (conj Hmod (conj Hmodt
           (conj (Hterm eq_refl) (conj Hraise (conj Hone
              (Hfr "modifier" Hne)))))))))).
Defined.

(** ** Collection records: the member counters *)

Lemma count_split ms :
  (count_datasets ms + count_collections ms)%nat = List.length ms.
Proof.
  unfold count_datasets, count_collections.
  induction ms as [|kv ms IH]; simpl; auto.
  destruct (is_datacollection kv); simpl; lia.
Qed.

(** Incrementing an integer attribute. *)
Lemma increment_int key n w :
  Dict.get key (_metadata (self w)) = Some (VInt n) ->
  AbstractMetadata.increment key w =
    (Return tt,
     World (with_metadata (self w)
              (Dict.set key (VInt (n + 1)) (_metadata (self w))))
           (stdout w)).
Proof.
  intros H. unfold AbstractMetadata.increment, AbstractMetadata.getitem,
    AbstractMetadata.setitem, bind, get_self, put_self, lift, ret.
  simpl. rewrite H. reflexivity.
Qed.

(** The loop of [update]: from counters [a], [b], [c] it returns with the
    counters advanced by the number of members, of collections and of
    datasets, and touches nothing else. *)
Lemma count_members_loop ms : forall w a b c,
  Dict.get "n_members" (_metadata (self w)) = Some (VInt a) ->
  Dict.get "n_members_datacollection" (_metadata (self w)) = Some (VInt b) ->
  Dict.get "n_members_dataset" (_metadata (self w)) = Some (VInt c) ->
  exists w',
    for_each ms MetadataDescDataCollection.count_member w = (Return tt, w') /\
    Dict.get "n_members" (_metadata (self w')) =
      Some (VInt (a + Z.of_nat (List.length ms))) /\
    Dict.get "n_members_datacollection" (_metadata (self w')) =
      Some (VInt (b + Z.of_nat (count_collections ms))) /\
    Dict.get "n_members_dataset" (_metadata (self w')) =
      Some (VInt (c + Z.of_nat (count_datasets ms))) /\
    (forall k, k <> "n_members" -> k <> "n_members_datacollection" ->
               k <> "n_members_dataset" ->
       Dict.get k (_metadata (self w')) = Dict.get k (_metadata (self w))) /\
    stdout w' = stdout w.
Proof.
  induction ms as [|kv ms IH]; intros w a b c Ha Hb Hc.
  - exists w. simpl. unfold count_collections, count_datasets. simpl.
    rewrite !Z.add_0_r. unfold ret. repeat split; auto.
  - simpl for_each. unfold bind at 1.
    unfold MetadataDescDataCollection.count_member at 1. unfold bind at 1.
    rewrite (increment_int _ _ Ha).
    set (w1 := World _ _).
    assert (Ha1 : Dict.get "n_members" (_metadata (self w1)) =
                  Some (VInt (a + 1)))
      by (unfold w1; simpl; apply get_set_same).
    assert (Hb1 : Dict.get "n_members_datacollection" (_metadata (self w1)) =
                  Some (VInt b))
      by (unfold w1; simpl; rewrite get_set_other by discriminate; exact Hb).
    assert (Hc1 : Dict.get "n_members_dataset" (_metadata (self w1)) =
                  Some (VInt c))
      by (unfold w1; simpl; rewrite get_set_other by discriminate; exact Hc).
    assert (Hf1 : forall k, k <> "n_members" ->
      Dict.get k (_metadata (self w1)) = Dict.get k (_metadata (self w)))
      by (intros k Hk; unfold w1; simpl; now rewrite get_set_other).
    unfold count_collections, count_datasets. simpl filter.
    fold (is_datacollection kv).
    destruct (is_datacollection kv) eqn:E; simpl negb; cbv iota.
    + rewrite (increment_int _ _ Hb1).
      set (w2 := World _ _).
      destruct (IH w2 (a + 1) (b + 1) c) as (w' & Hrun & Hn & Hm & Hd & Hfr & Hout).
      * unfold w2; simpl; rewrite get_set_other by discriminate; exact Ha1.
      * unfold w2; simpl; apply get_set_same.
      * unfold w2; simpl; rewrite get_set_other by discriminate; exact Hc1.
      * exists w'. rewrite Hrun, Hn, Hm, Hd, Hout.
        unfold count_collections, count_datasets. simpl List.length.
        repeat split; try (do 2 f_equal; lia).
        intros k K1 K2 K3. rewrite (Hfr k K1 K2 K3). unfold w2. simpl.
        rewrite get_set_other by assumption. now apply Hf1.
    + rewrite (increment_int _ _ Hc1).
      set (w2 := World _ _).
      destruct (IH w2 (a + 1) b (c + 1)) as (w' & Hrun & Hn & Hm & Hd & Hfr & Hout).
      * unfold w2; simpl; rewrite get_set_other by discriminate; exact Ha1.
      * unfold w2; simpl; rewrite get_set_other by discriminate; exact Hb1.
      * unfold w2; simpl; apply get_set_same.
      * exists w'. rewrite Hrun, Hn, Hm, Hd, Hout.
        unfold count_collections, count_datasets. simpl List.length.
        repeat split; try (do 2 f_equal; lia).
        intros k K1 K2 K3. rewrite (Hfr k K1 K2 K3). unfold w2. simpl.
        rewrite get_set_other by assumption. now apply Hf1.
Qed.

(** C7: on the Descriptive record of a collection whose member mapping
    holds N members that are datasets and M members that are collections,
    [update] returns, whatever the counters were before, with
    [n_members = N + M], [n_members_datacollection = M] and
    [n_members_dataset = N]; N + M is the size of the mapping. *)
Theorem collection_update_counts env event w :
  cls (self w) = MetadataDescDataCollection ->
  let ms := entity_get (_entity (self w)) in
  let N := count_datasets ms in
  let M := count_collections ms in
  exists w',
    update env event w = (Return tt, w') /\
    Dict.get "n_members" (_metadata (self w')) =
      Some (VInt (Z.of_nat (N + M))) /\
    Dict.get "n_members_datacollection" (_metadata (self w')) =
      Some (VInt (Z.of_nat M)) /\
    Dict.get "n_members_dataset" (_metadata (self w')) =
      Some (VInt (Z.of_nat N)) /\
    (N + M)%nat = List.length ms.
Proof.
  intros Hc ms N M. unfold update. rewrite Hc.
  unfold MetadataDescDataCollection.update,
    MetadataDescDataCollection._reset, AbstractMetadata.setitem, bind,
    get_self, put_self. simpl.
  set (w0 := World _ _).
  destruct (@count_members_loop ms w0 0 0 0)
    as (w' & Hrun & Hn & Hm & Hd & _ & _).
  - unfold w0. simpl. now rewrite !get_set_other, get_set_same by discriminate.
  - unfold w0. simpl. now rewrite !get_set_other, get_set_same by discriminate.
  - unfold w0. simpl. apply get_set_same.
  - exists w'. fold ms. rewrite Hrun, Hn, Hm, Hd. unfold N, M.
    rewrite count_split. repeat split; reflexivity.
Qed.

Lemma collection_update_counts_witness :
  exists w',
    update sample_env VNone collection_record = (Return tt, w') /\
    Dict.get "n_members" (_metadata (self w')) = Some (VInt 3) /\
    Dict.get "n_members_datacollection" (_metadata (self w')) =
      Some (VInt 1) /\
    Dict.get "n_members_dataset" (_metadata (self w')) = Some (VInt 2) /\
    (2 + 1)%nat = 3%nat.
Proof.
  apply (@collection_update_counts sample_env VNone collection_record).
  reflexivity.
Defined.

(** ** The taxonomy container *)

Lemma lower_kind_name_inj k1 k2 :
  PyStr.lower (kind_name k1) = PyStr.lower (kind_name k2) -> k1 = k2.
Proof. destruct k1, k2; simpl; intros H; try reflexivity; discriminate H. Qed.

Lemma metadata_type_key_inj r1 r2 :
  PyStr.lower (metadata_type r1) = PyStr.lower (metadata_type r2) ->
  kind_of (cls r1) = kind_of (cls r2).
Proof. apply lower_kind_name_inj. Qed.

Lemma keyed_kind_in_keys (t : taxonomy) r :
  keyed_by_kind t -> In (kind_of (cls r)) (kinds t) ->
  In (PyStr.lower (metadata_type r)) (Dict.keys t).
Proof.
  unfold keyed_by_kind, kinds, Dict.keys. intros Hk Hin.
  apply in_map_iff in Hin. destruct Hin as ((k', r') & Heq & Hin).
  simpl in Heq. rewrite Forall_forall in Hk. specialize (Hk _ Hin).
  simpl in Hk. apply in_map_iff. exists (k', r'). split; auto.
  simpl. rewrite Hk. unfold metadata_type. now rewrite Heq.
Qed.

(** Storing a record under its kind keeps the invariant. *)
Lemma set_preserves_inv (t : taxonomy) r :
  taxonomy_inv t ->
  taxonomy_inv (Dict.set (PyStr.lower (metadata_type r)) r t).
Proof.
  intros [Hnd Hk]. set (key := PyStr.lower (metadata_type r)).
  destruct (Dict.get key t) eqn:G.
  - destruct (@set_present _ key r t) as (d1 & r0 & d2 & Ht & Hs);
      [congruence|].
    rewrite Hs. subst t. unfold taxonomy_inv, kinds, keyed_by_kind in *.
    rewrite map_app in *. simpl in *.
    apply Forall_app in Hk. destruct Hk as [Hk1 Hk2].
    inversion Hk2 as [|x l Hx Hl]; subst. simpl in Hx.
    assert (E : kind_of (cls r) = kind_of (cls r0))
      by (apply metadata_type_key_inj; exact Hx).
    rewrite E. split; auto.
    apply Forall_app. split; auto.
  - rewrite (@set_absent _ key r t G). unfold taxonomy_inv. split.
    + unfold kinds. rewrite map_app. simpl.
      apply NoDup_rev in Hnd.
      rewrite <- (rev_involutive (_ ++ _)%list). apply NoDup_rev.
      rewrite rev_app_distr. simpl. constructor; auto.
      rewrite <- in_rev. intros Hin.
      apply get_none_not_in in G. apply G.
      now apply keyed_kind_in_keys.
    + unfold keyed_by_kind. apply Forall_app. split; auto.
Qed.

Lemma taxonomy_add_run r w :
  Metadata.add r w =
    (Return tt,
     World (Dict.set (PyStr.lower (metadata_type r)) r (self w)) (stdout w)).
Proof. reflexivity. Qed.

(** C9: for every taxonomy and records [r1], [r2] of one kind, [add(r1)]
    then [add(r2)] returns, [r2] is what is stored under the lower-cased
    kind name, the second [add] replaces the entry of the first instead
    of adding one, and the invariant (at most one record per kind, each
    under its kind's key) carries over from before a single [add] to
    after it, hence also over the two. *)
Theorem taxonomy_add_last_write_wins w r1 r2 :
  kind_of (cls r1) = kind_of (cls r2) ->
  let run := (Metadata.add r1 ;; Metadata.add r2) w in
  fst run = Return tt /\
  Dict.get (PyStr.lower (metadata_type r2)) (self (snd run)) = Some r2 /\
  Dict.keys (self (snd run)) = Dict.keys (self (snd (Metadata.add r1 w))) /\
  (forall r w0, taxonomy_inv (self w0) ->
                fst (Metadata.add r w0) = Return tt /\
                taxonomy_inv (self (snd (Metadata.add r w0)))) /\
  (taxonomy_inv (self w) -> taxonomy_inv (self (snd run))).
Proof.
  intros Hk. unfold bind. rewrite !taxonomy_add_run. simpl.
  split; [reflexivity|]. split; [apply get_set_same|]. split; [|split].
  - unfold metadata_type. rewrite <- Hk. apply keys_set_present.
    rewrite get_set_same. discriminate.
  - intros r w0 H. split; [reflexivity|]. now apply set_preserves_inv.
  - intros H. now do 2 apply set_preserves_inv.
Qed.

Lemma taxonomy_add_last_write_wins_witness :
  let w := World Metadata.__init__ [] in
  let r1 := desc_record "First" in
  let r2 := desc_record "Second" in
  let run := (Metadata.add r1 ;; Metadata.add r2) w in
  fst run = Return tt /\
  Dict.get (PyStr.lower (metadata_type r2)) (self (snd run)) = Some r2 /\
  Dict.keys (self (snd run)) = Dict.keys (self (snd (Metadata.add r1 w))) /\
  (forall r w0, taxonomy_inv (self w0) ->
                fst (Metadata.add r w0) = Return tt /\
                taxonomy_inv (self (snd (Metadata.add r w0)))) /\
  (taxonomy_inv (self w) -> taxonomy_inv (self (snd run))).
Proof.
  apply (@taxonomy_add_last_write_wins (World Metadata.__init__ [])
           (desc_record "First") (desc_record "Second")).
  reflexivity.
Defined.

(** *** Lookup by kind *)

(** Among the four kind keys, ["admin"] and ["Administrative"] match the
    administrative one only. *)
Lemma matches_admin k :
  Metadata.matches "admin" (PyStr.lower (kind_name k)) =
    String.eqb "administrative" (PyStr.lower (kind_name k)) /\
  Metadata.matches "Administrative" (PyStr.lower (kind_name k)) =
    String.eqb "administrative" (PyStr.lower (kind_name k)).
Proof. destruct k; split; reflexivity. Qed.

(** In a taxonomy whose records sit under their kind's key, [get("admin")]
    and [get("Administrative")] both return the record stored under
    ["administrative"]. *)
Lemma taxonomy_get_admin w r :
  keyed_by_kind (self w) ->
  Dict.get "administrative" (self w) = Some r ->
  Metadata.get (Some "admin") w = (Return (Record_ r), w) /\
  Metadata.get (Some "Administrative") w = (Return (Record_ r), w).
Proof.
  intros Hk Hg. unfold Metadata.get, bind, get_self, ret. simpl.
  assert (E : forall s,
    (forall k, Metadata.matches s (PyStr.lower (kind_name k)) =
               String.eqb "administrative" (PyStr.lower (kind_name k))) ->
    Dict.first_match (Metadata.matches s) (self w) = Some r).
  { intros s Hs. revert Hg. induction Hk as [|[k r0] t Hx Ht IH].
    - discriminate.
    - cbn [fst snd] in Hx. subst k.
      rewrite get_cons, first_match_cons. unfold metadata_type.
      rewrite Hs. destruct (String.eqb _ _); auto. }
  rewrite !E by (intros k; apply matches_admin). auto.
Qed.

(** C3, the lookup that matches nothing: the generator is exhausted and
    [next] raises [StopIteration]; the [KeyError] written after it is
    not reached, on the empty taxonomy or on a full one. *)
Theorem taxonomy_get_unmatched :
  let full :=
    snd ((Metadata.add (MetadataAdmin.__init__ MetadataAdmin sample_env
                          dataset "sf_listings" []) ;;
          Metadata.add (MetadataDesc.__init__ MetadataDesc dataset
                          "sf_listings" []) ;;
          Metadata.add (MetadataTech.__init__ MetadataTech sample_env
                          dataset "sf_listings" []) ;;
          Metadata.add (MetadataProcess.__init__ MetadataProcess sample_env
                          dataset "sf_listings" []))
           (World Metadata.__init__ [])) in
  Dict.keys (self full) =
    ["administrative"; "descriptive"; "technical"; "process"] /\
  Metadata.get (Some "nonexistent") full = (Raise StopIteration, full) /\
  Metadata.get (Some "nonexistent") (World Metadata.__init__ []) =
    (Raise StopIteration, World Metadata.__init__ []).
Proof. repeat split. Qed.

(** No lookup ends in the [KeyError] of [get]: whatever is raised is
    [StopIteration]. *)
Lemma taxonomy_get_raises_only_StopIteration w t e :
  fst (Metadata.get t w) = Raise e -> e = StopIteration.
Proof.
  unfold Metadata.get, bind, get_self, ret, raise. simpl.
  destruct t as [s|]; simpl; [|discriminate].
  destruct (Dict.first_match _ _); simpl; congruence.
Qed.

(** ** Records without an update counter *)

(** C4, where the base update fails: the Descriptive, Technical and
    Process constructors store no [updates] attribute, so the base
    [update] (and [update_metadata], which ends in it) raises
    [KeyError('updates')]; on a fresh Administrative record the base
    update counts one and the record's own [update] counts two. *)
Theorem base_update_needs_counter env e name kwargs out event :
  let desc := World (MetadataDesc.__init__ MetadataDesc e name kwargs) out in
  let tech := World (MetadataTech.__init__ MetadataTech env e name kwargs) out in
  let proc :=
    World (MetadataProcess.__init__ MetadataProcess env e name kwargs) out in
  let admin :=
    World (MetadataAdmin.__init__ MetadataAdmin env e name kwargs) out in
  update env event desc = (Raise (KeyError "updates"), desc) /\
  update env event tech = (Raise (KeyError "updates"), tech) /\
  MetadataTech.update_metadata env event tech =
    (Raise (KeyError "updates"), tech) /\
  AbstractMetadata.update event proc = (Raise (KeyError "updates"), proc) /\
  Dict.get "updates"
    (_metadata (self (snd (AbstractMetadata.update event admin)))) =
    Some (VInt 1) /\
  Dict.get "updates" (_metadata (self (snd (update env event admin)))) =
    Some (VInt 2).
Proof. repeat split. Qed.

(** ** Process records *)

(** C6, where the log update fails: the constructor leaves exactly the
    "instantiated" line in the log, and no constructor assigns [_name],
    so every [update], whatever the event, raises [AttributeError] while
    building its message and leaves the log as it was. *)
Theorem process_update_needs_name env env' e name kwargs out event :
  let w :=
    World (MetadataProcess.__init__ MetadataProcess env e name kwargs) out in
  Dict.get "log" (_metadata (self w)) =
    Some (VList [MetadataProcess.instantiated_msg env e name]) /\
  update env' event w = (Raise (AttributeError "_name"), w).
Proof. repeat split. Qed.

(** Had the record a name, a string event that is truthy would append
    one line and the empty string would change nothing, while the default
    event [None] would raise [TypeError]. *)
Lemma process_update_with_name env o n l ev :
  _name o = Some n ->
  Dict.get "log" (_metadata o) = Some (VList l) ->
  let msg := "Class : " ++ class_name (_entity o) ++ "Name : " ++ n ++
             "Date : " ++ strftime_c env ++ "Event : " ++ ev in
  forall out,
    MetadataProcess.update env (VStr ev) (World o out) =
      (Return tt,
       if PyStr.truthy ev
       then World (with_metadata o
                     (Dict.set "log" (VList (l ++ [msg])%list) (_metadata o)))
                  out
       else World o out) /\
    MetadataProcess.update env VNone (World o out) =
      (Raise TypeError, World o out).
Proof.
  intros Hn Hl msg out.
  unfold MetadataProcess.update, MetadataProcess.getattr_name,
    MetadataProcess.log_append, AbstractMetadata.getitem,
    AbstractMetadata.setitem, bind, get_self, put_self, lift, ret, raise.
  simpl. rewrite Hn. simpl. split; [|reflexivity].
  destruct ev; simpl; [reflexivity|]. now rewrite Hl.
Qed.

(** ** Remote administrative records *)

(** C8, where the url arguments are lost: [MetadataAdminURL] filters its
    own attributes, none of which has "url" in its key, so it stores what
    [MetadataAdmin] stores whatever the keyword arguments are, and a
    [url] argument is not an attribute of the record; the RDBMS record,
    which filters the keyword arguments, does store its [host]; and the
    remote factory, which never assigns [_addl_params], cannot create the
    record at all. *)
Theorem admin_url_drops_kwargs env e name kwargs out :
  _metadata (MetadataAdminURL.__init__ MetadataAdminURL env e name kwargs) =
    _metadata (MetadataAdmin.__init__ MetadataAdminURL env e name []) /\
  AbstractMetadata.get (Some "url")
    (World (MetadataAdminURL.__init__ MetadataAdminURL env e name
              [("url", VStr "https://data.sfgov.org/listings.csv")]) out) =
    (Raise (KeyError "Key, 'url', does not exist."),
     World (MetadataAdminURL.__init__ MetadataAdminURL env e name
              [("url", VStr "https://data.sfgov.org/listings.csv")]) out) /\
  Dict.get "host"
    (_metadata (MetadataTechRDBMS.__init__ MetadataTechRDBMS env e name
                  [("host", VStr "localhost")])) = Some (VStr "localhost") /\
  MetadataRemoteFactory.create_admin env
    (World (MetadataRemoteFactory.__init__ e name) out) =
    (Raise (AttributeError "_addl_params"),
     World (MetadataRemoteFactory.__init__ e name) out).
Proof. repeat split. Qed.

(* ================================================================== *)
(** * Further properties of the module *)
(* ================================================================== *)

(** ** Dictionaries: deletion and key order *)

Section DictMoreFacts.
Variable V : Type.
Implicit Types (d : Dict.t V) (k : string) (v : V).

Lemma get_del_other k k' d :
  k <> k' -> Dict.get k (Dict.del k' d) = Dict.get k d.
Proof.
  intros Hne. induction d as [|[k0 v0] d IH]; [reflexivity|].
  cbn [Dict.del]. destruct (String.eqb k' k0) eqn:E.
  - apply String.eqb_eq in E. subst k0. rewrite get_cons.
    apply String.eqb_neq in Hne. now rewrite Hne.
  - rewrite !get_cons. now rewrite IH.
Qed.

Lemma keys_del_incl k d : incl (Dict.keys (Dict.del k d)) (Dict.keys d).
Proof.
  induction d as [|[k0 v0] d IH]; [intros x Hx; exact Hx|].
  cbn [Dict.del]. destruct (String.eqb k k0).
  - intros x Hx. right. exact Hx.
  - intros x [Hx|Hx]; [left; exact Hx|right; now apply IH].
Qed.

Lemma NoDup_keys_del k d :
  NoDup (Dict.keys d) -> NoDup (Dict.keys (Dict.del k d)).
Proof.
  induction d as [|[k0 v0] d IH]; [auto|].
  cbn [Dict.del]. intros H. inversion H as [|x l Hx Hl]; subst.
  destruct (String.eqb k k0); [exact Hl|].
  change (NoDup (k0 :: Dict.keys (Dict.del k d))).
  constructor; [|now apply IH].
  intros Hin. apply Hx. now apply (@keys_del_incl k d).
Qed.

Lemma get_del_same k d :
  NoDup (Dict.keys d) -> Dict.get k (Dict.del k d) = None.
Proof.
  induction d as [|[k0 v0] d IH]; [reflexivity|].
  cbn [Dict.del]. intros H. inversion H as [|x l Hx Hl]; subst.
  destruct (String.eqb k k0) eqn:E.
  - apply String.eqb_eq in E. subst k0. now apply get_none_not_in.
  - rewrite get_cons, E. now apply IH.
Qed.

Lemma del_set_absent k v d :
  Dict.get k d = None -> Dict.del k (Dict.set k v d) = d.
Proof.
  induction d as [|[k0 v0] d IH].
  - intros _. cbn. now rewrite String.eqb_refl.
  - rewrite get_cons. cbn [Dict.set]. destruct (String.eqb k k0) eqn:E;
      [discriminate|].
    intros H. cbn [Dict.del]. rewrite E. now rewrite IH.
Qed.

Lemma NoDup_keys_set k v d :
  NoDup (Dict.keys d) -> NoDup (Dict.keys (Dict.set k v d)).
Proof.
  intros H. destruct (Dict.get k d) eqn:G.
  - rewrite keys_set_present; [exact H|congruence].
  - rewrite (@set_absent _ k v d G). unfold Dict.keys. rewrite map_app.
    apply NoDup_rev in H.
    rewrite <- (rev_involutive (_ ++ _)%list). apply NoDup_rev.
    rewrite rev_app_distr. cbn. constructor; [|exact H].
    rewrite <- in_rev. now apply get_none_not_in.
Qed.

End DictMoreFacts.

(** ** The attribute store: change, remove and key order *)

Lemma setitem_run key v w :
  AbstractMetadata.setitem key v w =
    (Return tt,
     World (with_metadata (self w) (Dict.set key v (_metadata (self w))))
           (stdout w)).
Proof. reflexivity. Qed.

(** X1: [change(k, v)] on a key that is present returns, prints nothing,
    stores [v] under [k] where [k] already stood (the order of the keys is
    kept) and leaves every other attribute as it was; a following
    [get(k)] with non-empty [k] returns [v]. *)
Theorem change_present w k v :
  Dict.mem k (_metadata (self w)) = true ->
  let w' := snd (AbstractMetadata.change k v w) in
  fst (AbstractMetadata.change k v w) = Return tt /\
  Dict.get k (_metadata (self w')) = Some v /\
  Dict.keys (_metadata (self w')) = Dict.keys (_metadata (self w)) /\
  (forall k', k' <> k ->
     Dict.get k' (_metadata (self w')) = Dict.get k' (_metadata (self w))) /\
  stdout w' = stdout w /\
  (k <> "" -> AbstractMetadata.get (Some k) w' = (Return (Value v), w')).
Proof.
  intros Hm.
  assert (E : AbstractMetadata.change k v w =
              AbstractMetadata.setitem k v w).
  { unfold AbstractMetadata.change, bind, get_self. cbn. now rewrite Hm. }
  rewrite E, setitem_run.
  cbn [fst snd self stdout _metadata with_metadata].
  split; [reflexivity|]. split; [apply get_set_same|]. split.
  { apply keys_set_present. unfold Dict.mem in Hm.
    destruct (Dict.get k (_metadata (self w))); [discriminate|discriminate]. }
  split; [intros k' Hk'; now apply get_set_other|].
  split; [reflexivity|].
  intros Hk. apply get_present; [exact Hk|].
  cbn [self _metadata]. apply get_set_same.
Qed.

Lemma change_present_witness :
  let w' := snd (AbstractMetadata.change "updates" (VInt 7) admin_record) in
  fst (AbstractMetadata.change "updates" (VInt 7) admin_record) = Return tt /\
  Dict.get "updates" (_metadata (self w')) = Some (VInt 7) /\
  Dict.keys (_metadata (self w')) =
    Dict.keys (_metadata (self admin_record)) /\
  (forall k', k' <> "updates" ->
     Dict.get k' (_metadata (self w')) =
       Dict.get k' (_metadata (self admin_record))) /\
  stdout w' = stdout admin_record /\
  ("updates" <> "" ->
   AbstractMetadata.get (Some "updates") w' = (Return (Value (VInt 7)), w')).
Proof.
  apply (@change_present admin_record "updates" (VInt 7)). reflexivity.
Defined.

(** X2: [remove(k)] on a key that is present returns and prints nothing;
    afterwards [k] is absent (so [change(k, v)] raises [KeyError] and
    [add(k, v)] is possible again), every other attribute is as it was and
    the keys are still distinct. *)
Theorem remove_present w k v :
  unique_keys w ->
  Dict.mem k (_metadata (self w)) = true ->
  let w' := snd (AbstractMetadata.remove k w) in
  fst (AbstractMetadata.remove k w) = Return tt /\
  stdout w' = stdout w /\
  Dict.mem k (_metadata (self w')) = false /\
  (forall k', k' <> k ->
     Dict.get k' (_metadata (self w')) = Dict.get k' (_metadata (self w))) /\
  unique_keys w' /\
  AbstractMetadata.change k v w' =
    (Raise (KeyError ("Key " ++ k ++ " does not exist.")), w') /\
  fst (AbstractMetadata.add k v w') = Return tt.
Proof.
  intros Hu Hm.
  assert (E : AbstractMetadata.remove k w =
    (Return tt,
     World (with_metadata (self w) (Dict.del k (_metadata (self w))))
           (stdout w))).
  { unfold AbstractMetadata.remove, bind, get_self, put_self.
    cbn [self stdout fst snd]. now rewrite Hm. }
  rewrite E. cbn [fst snd]. set (w' := World _ _).
  assert (Hgone : Dict.mem k (_metadata (self w')) = false).
  { apply mem_false_get. unfold w'. cbn [self _metadata with_metadata].
    now apply get_del_same. }
  split; [reflexivity|]. split; [reflexivity|]. split; [exact Hgone|].
  split.
  { intros k' Hk'. unfold w'. cbn [self _metadata with_metadata].
    now apply get_del_other. }
  split.
  { unfold unique_keys, w'. cbn [self _metadata with_metadata].
    now apply NoDup_keys_del. }
  split.
  - unfold AbstractMetadata.change, bind, get_self, raise.
    cbn [self fst snd]. now rewrite Hgone.
  - now rewrite (add_absent _ _ _ Hgone).
Qed.

Lemma remove_present_witness :
  let w' := snd (AbstractMetadata.remove "creator" admin_record) in
  fst (AbstractMetadata.remove "creator" admin_record) = Return tt /\
  stdout w' = stdout admin_record /\
  Dict.mem "creator" (_metadata (self w')) = false /\
  (forall k', k' <> "creator" ->
     Dict.get k' (_metadata (self w')) =
       Dict.get k' (_metadata (self admin_record))) /\
  unique_keys w' /\
  AbstractMetadata.change "creator" (VStr "jj") w' =
    (Raise (KeyError ("Key " ++ "creator" ++ " does not exist.")), w') /\
  fst (AbstractMetadata.add "creator" (VStr "jj") w') = Return tt.
Proof.
  apply (@remove_present admin_record "creator" (VStr "jj")).
  - unfold unique_keys. cbn.
    repeat (constructor; [cbn; intuition discriminate|]). constructor.
  - reflexivity.
Defined.

(** X3: [add(k, v)] on an absent key puts the new attribute after all
    the others, as [get()] then shows, and a following [remove(k)] gives
    back exactly the record and output there were before the [add]. *)
Theorem add_remove_roundtrip w k v :
  Dict.mem k (_metadata (self w)) = false ->
  let w1 := snd (AbstractMetadata.add k v w) in
  AbstractMetadata.get None w1 =
    (Return (Mapping (_metadata (self w) ++ [(k, v)])%list), w1) /\
  (AbstractMetadata.add k v ;; AbstractMetadata.remove k) w = (Return tt, w).
Proof.
  intros Hm. unfold bind. rewrite (add_absent _ _ _ Hm).
  cbn [fst snd]. set (w1 := World _ _).
  assert (Hget : Dict.get k (_metadata (self w)) = None)
    by now apply mem_false_get.
  split.
  - unfold AbstractMetadata.get, bind, get_self, ret, w1.
    cbn [self _metadata with_metadata]. now rewrite (@set_absent _ k v _ Hget).
  - unfold AbstractMetadata.remove, bind, get_self, put_self, w1.
    cbn [self stdout _metadata with_metadata cls _entity _name].
    rewrite mem_set_same, (@del_set_absent _ k v _ Hget).
    destruct w as [[c e n d] out]. reflexivity.
Qed.

Lemma add_remove_roundtrip_witness :
  let w1 := snd (AbstractMetadata.add "license" (VStr "BSD") admin_record) in
  AbstractMetadata.get None w1 =
    (Return (Mapping (_metadata (self admin_record) ++
                      [("license", VStr "BSD")])%list), w1) /\
  (AbstractMetadata.add "license" (VStr "BSD") ;;
   AbstractMetadata.remove "license") admin_record =
    (Return tt, admin_record).
Proof.
  apply (@add_remove_roundtrip admin_record "license" (VStr "BSD")).
  reflexivity.
Defined.

(** ** Administrative records: the counter *)

(** One administrative update on an integer counter. *)
Lemma admin_update_int env event w n :
  Dict.get "updates" (_metadata (self w)) = Some (VInt n) ->
  MetadataAdmin.update env event w =
    (Return tt,
     World (with_metadata (self w)
              (Dict.set "updates" (VInt (n + 1 + 1))
                 (Dict.set "modified" (VStr (strftime_c env))
                    (Dict.set "modifier" (VStr (getlogin env))
                       (Dict.set "updates" (VInt (n + 1))
                          (_metadata (self w)))))))
           (stdout w)).
Proof.
  intros H. unfold MetadataAdmin.update, AbstractMetadata.update.
  unfold bind at 1. rewrite (increment_int _ _ H).
  unfold bind at 1. rewrite setitem_run.
  unfold bind at 1. rewrite setitem_run.
  cbn [self stdout _metadata with_metadata cls _entity _name].
  rewrite (@increment_int "updates" (n + 1)).
  - reflexivity.
  - cbn [self _metadata with_metadata].
    rewrite !get_set_other by discriminate. apply get_set_same.
Qed.

Lemma update_admin_dispatch env event w :
  kind_of (cls (self w)) = Administrative ->
  update env event w = MetadataAdmin.update env event w.
Proof.
  intros Hk. unfold update.
  destruct (cls (self w)); try reflexivity; discriminate.
Qed.

(** X5: in processes with a controlling terminal, where [os.getlogin()]
    returns, a series of [update] calls on an Administrative record whose
    counter is the integer [n] returns, and the counter then reads [n]
    plus twice the number of calls: every call counts two, once in the
    base method and once in the record's own. *)
Theorem admin_updates_count_twice (calls : list (runtime * value)) w n :
  kind_of (cls (self w)) = Administrative ->
  Dict.get "updates" (_metadata (self w)) = Some (VInt n) ->
  Forall (fun c => has_terminal (fst c) = true) calls ->
  exists w',
    for_each calls (fun c => update_in (fst c) (snd c)) w = (Return tt, w') /\
    Dict.get "updates" (_metadata (self w')) =
      Some (VInt (n + 2 * Z.of_nat (List.length calls))) /\
    cls (self w') = cls (self w) /\
    stdout w' = stdout w.
Proof.
  revert w n. induction calls as [|[rt event] calls IH]; intros w n Hk Hn Ht.
  - exists w. cbn [for_each List.length]. unfold ret.
    rewrite Z.mul_0_r, Z.add_0_r. auto.
  - inversion Ht as [|c cs Hrt Hcs]; subst. cbn [fst] in Hrt.
    cbn [for_each fst snd]. unfold bind at 1.
    rewrite (update_in_admin_dispatch rt event w Hk),
      (admin_update_in_terminal rt event w Hrt),
      (admin_update_int (ambient rt) event w Hn).
    set (w1 := World _ _).
    destruct (IH w1 (n + 1 + 1)) as (w' & Hrun & Hc & Hcls & Hout).
    + exact Hk.
    + unfold w1. cbn [self _metadata with_metadata]. apply get_set_same.
    + exact Hcs.
    + exists w'. rewrite Hrun, Hc, Hcls, Hout.
      repeat split. do 2 f_equal. cbn [List.length]. lia.
Qed.

Lemma admin_updates_count_twice_witness :
  exists w',
    for_each [(at_terminal sample_env, VNone);
              (at_terminal later_env, VStr "read");
              (at_terminal later_env, VNone)]
      (fun c => update_in (fst c) (snd c)) admin_record = (Return tt, w') /\
    Dict.get "updates" (_metadata (self w')) = Some (VInt (0 + 2 * 3)) /\
    cls (self w') = cls (self admin_record) /\
    stdout w' = stdout admin_record.
Proof.
  apply (@admin_updates_count_twice
           [(at_terminal sample_env, VNone);
            (at_terminal later_env, VStr "read");
            (at_terminal later_env, VNone)]
           admin_record 0); [reflexivity|reflexivity|].
  repeat constructor.
Defined.

(** How an administrative update in a process with a terminal raises. *)
Lemma admin_update_raises env event w e :
  fst (MetadataAdmin.update env event w) = Raise e ->
  snd (MetadataAdmin.update env event w) = w /\
  ((e = KeyError "updates" /\
    Dict.get "updates" (_metadata (self w)) = None) \/
   (e = TypeError /\
    exists v, Dict.get "updates" (_metadata (self w)) = Some v /\
              add_one v = Raise TypeError)).
Proof.
  unfold MetadataAdmin.update, AbstractMetadata.update,
    AbstractMetadata.increment, AbstractMetadata.getitem,
    AbstractMetadata.setitem, bind, get_self, put_self, lift, ret, raise.
  cbn [self stdout fst snd _metadata with_metadata].
  destruct (Dict.get "updates" (_metadata (self w))) as [v|] eqn:G;
    cbn [fst snd].
  - destruct v as [|b|n|s|l]; cbn [add_one fst snd self stdout _metadata
                                    with_metadata];
      try (intros H; inversion H; subst; split; [reflexivity|];
           right; split; [reflexivity|]; eexists; split; reflexivity).
    + rewrite !get_set_other, get_set_same by discriminate.
      cbn [add_one fst]. discriminate.
    + rewrite !get_set_other, get_set_same by discriminate.
      cbn [add_one fst]. discriminate.
  - intros H. inversion H; subst. split; [reflexivity|]. left. auto.
Qed.

(** X6: there are three ways in which an [update] of an Administrative
    record raises.  [KeyError('updates')], when the counter is missing,
    and [TypeError], when it is not a number, leave the record as it was.
    [OSError], from [os.getlogin()] in a process without a controlling
    terminal, comes after the base update: the counter has been
    incremented once and nothing else has changed. *)
Theorem admin_update_failure_cases rt event w e :
  kind_of (cls (self w)) = Administrative ->
  fst (update_in rt event w) = Raise e ->
  (e = KeyError "updates" /\
   Dict.get "updates" (_metadata (self w)) = None /\
   snd (update_in rt event w) = w) \/
  (e = TypeError /\
   (exists v, Dict.get "updates" (_metadata (self w)) = Some v /\
              add_one v = Raise TypeError) /\
   snd (update_in rt event w) = w) \/
  (e = OSError /\ has_terminal rt = false /\
   exists v v1,
     Dict.get "updates" (_metadata (self w)) = Some v /\
     add_one v = Return v1 /\
     snd (update_in rt event w) =
       World (with_metadata (self w)
                (Dict.set "updates" v1 (_metadata (self w))))
             (stdout w)).
Proof.
  intros Hk. rewrite (update_in_admin_dispatch rt event w Hk).
  destruct (has_terminal rt) eqn:Ht.
  - rewrite (admin_update_in_terminal rt event w Ht). intros H.
    destruct (admin_update_raises _ _ _ H) as (Hs & [[-> Hg]|[-> Hv]]);
      [left|right; left]; auto.
  - rewrite (admin_update_in_headless rt event w Ht).
    unfold AbstractMetadata.increment, AbstractMetadata.getitem,
      AbstractMetadata.setitem, bind, get_self, put_self, lift, ret, raise.
    cbn [self stdout fst snd].
    destruct (Dict.get "updates" (_metadata (self w))) as [v|] eqn:G;
      cbn [fst snd].
    + destruct (add_one v) as [v1|e1] eqn:A; cbn [fst snd]; intros H;
        inversion H; subst.
      * right; right. split; [reflexivity|]. split; [reflexivity|].
        exists v, v1. auto.
      * right; left.
        assert (e = TypeError) as -> by (destruct v; inversion A; reflexivity).
        split; [reflexivity|]. split; [|now destruct w].
        exists v. auto.
    + intros H. inversion H; subst. left. split; [reflexivity|].
      split; [reflexivity|now destruct w].
Qed.

Lemma admin_update_failure_cases_witness :
  let r := update_in (headless later_env) VNone admin_record in
  (OSError = KeyError "updates" /\
   Dict.get "updates" (_metadata (self admin_record)) = None /\
   snd r = admin_record) \/
  (OSError = TypeError /\
   (exists v, Dict.get "updates" (_metadata (self admin_record)) = Some v /\
              add_one v = Raise TypeError) /\
   snd r = admin_record) \/
  (OSError = OSError /\ has_terminal (headless later_env) = false /\
   exists v v1,
     Dict.get "updates" (_metadata (self admin_record)) = Some v /\
     add_one v = Return v1 /\
     snd r =
       World (with_metadata (self admin_record)
                (Dict.set "updates" v1 (_metadata (self admin_record))))
             (stdout admin_record)).
Proof.
  apply (@admin_update_failure_cases (headless later_env) VNone admin_record
           OSError); reflexivity.
Defined.

(** ** Administrative records: the object name *)

Lemma lower_ascii_idem c :
  PyStr.lower_ascii (PyStr.lower_ascii c) = PyStr.lower_ascii c.
Proof. destruct c as [[] [] [] [] [] [] [] []]; reflexivity. Qed.

Lemma lower_idem s : PyStr.lower (PyStr.lower s) = PyStr.lower s.
Proof.
  induction s as [|c s IH]; cbn [PyStr.lower]; [reflexivity|].
  now rewrite lower_ascii_idem, IH.
Qed.

Lemma lower_app a b :
  PyStr.lower (a ++ b) = PyStr.lower a ++ PyStr.lower b.
Proof.
  induction a as [|c a IH]; cbn [PyStr.lower String.append]; [reflexivity|].
  now rewrite IH.
Qed.

Lemma lower_uint d :
  PyStr.lower (NilEmpty.string_of_uint d) = NilEmpty.string_of_uint d.
Proof.
  induction d as [|d IH|d IH|d IH|d IH|d IH|d IH|d IH|d IH|d IH|d IH];
    cbn [NilEmpty.string_of_uint PyStr.lower]; [reflexivity|..];
    rewrite IH; reflexivity.
Qed.

(** The decimal rendering of an integer has no letter to lower. *)
Lemma lower_str n : PyStr.lower (PyStr.str n) = PyStr.str n.
Proof.
  unfold PyStr.str, NilZero.string_of_int, NilZero.string_of_uint.
  destruct (Z.to_int n) as [d|d]; destruct d;
    cbn [PyStr.lower]; try reflexivity;
    rewrite ?lower_uint; reflexivity.
Qed.

Lemma lower_date_string env :
  PyStr.lower (MetadataAdmin.date_string env) = MetadataAdmin.date_string env.
Proof.
  unfold MetadataAdmin.date_string.
  rewrite !lower_app, !lower_str. reflexivity.
Qed.

Lemma is_ascii_app a b :
  PyStr.is_ascii (a ++ b) = andb (PyStr.is_ascii a) (PyStr.is_ascii b).
Proof.
  induction a as [|c a IH]; cbn [PyStr.is_ascii String.append];
    [reflexivity|].
  now rewrite IH, andb_assoc.
Qed.

Lemma is_ascii_lower_ascii c :
  Nat.ltb (nat_of_ascii (PyStr.lower_ascii c)) 128 =
    Nat.ltb (nat_of_ascii c) 128.
Proof. destruct c as [[] [] [] [] [] [] [] []]; reflexivity. Qed.

Lemma is_ascii_lower s : PyStr.is_ascii (PyStr.lower s) = PyStr.is_ascii s.
Proof.
  induction s as [|c s IH]; cbn [PyStr.is_ascii PyStr.lower]; [reflexivity|].
  now rewrite is_ascii_lower_ascii, IH.
Qed.

Lemma is_ascii_uint d : PyStr.is_ascii (NilEmpty.string_of_uint d) = true.
Proof.
  induction d as [|d IH|d IH|d IH|d IH|d IH|d IH|d IH|d IH|d IH|d IH];
    cbn [NilEmpty.string_of_uint PyStr.is_ascii]; [reflexivity|..];
    rewrite IH; reflexivity.
Qed.

Lemma is_ascii_str n : PyStr.is_ascii (PyStr.str n) = true.
Proof.
  unfold PyStr.str, NilZero.string_of_int, NilZero.string_of_uint.
  destruct (Z.to_int n) as [d|d]; destruct d;
    cbn [PyStr.is_ascii]; try reflexivity;
    rewrite ?is_ascii_uint; reflexivity.
Qed.

Lemma is_ascii_date_string env :
  PyStr.is_ascii (MetadataAdmin.date_string env) = true.
Proof.
  unfold MetadataAdmin.date_string.
  rewrite !is_ascii_app, !is_ascii_str. reflexivity.
Qed.

(** X7: when the login name, the class name and the entity name are
    ASCII text, the [objectname] of a freshly built Administrative record
    is ASCII text without upper-case letters (lower-casing it changes
    nothing), and it is the same for ASCII names that differ from these
    in case only, at the same time. *)
Theorem objectname_is_lower_case c env e name kwargs :
  PyStr.is_ascii (getlogin env) = true ->
  PyStr.is_ascii (class_name e) = true ->
  PyStr.is_ascii name = true ->
  exists s,
    Dict.get "objectname"
      (_metadata (MetadataAdmin.__init__ c env e name kwargs)) =
      Some (VStr s) /\
    PyStr.is_ascii s = true /\
    PyStr.lower s = s /\
    forall c' env' e' name' kwargs',
      PyStr.is_ascii (getlogin env') = true ->
      PyStr.is_ascii (class_name e') = true ->
      PyStr.is_ascii name' = true ->
      PyStr.lower (getlogin env') = PyStr.lower (getlogin env) ->
      MetadataAdmin.date_string env' = MetadataAdmin.date_string env ->
      PyStr.lower (class_name e') = PyStr.lower (class_name e) ->
      PyStr.lower name' = PyStr.lower name ->
      Dict.get "objectname"
        (_metadata (MetadataAdmin.__init__ c' env' e' name' kwargs')) =
        Some (VStr s).
Proof.
  intros A1 A2 A3. eexists. split; [reflexivity|]. split; [|split].
  - rewrite !is_ascii_app, !is_ascii_lower, is_ascii_date_string, A1, A2, A3.
    reflexivity.
  - rewrite !lower_app, !lower_idem, lower_date_string. reflexivity.
  - intros c' env' e' name' kwargs' _ _ _ H1 H2 H3 H4.
    cbn [MetadataAdmin.__init__ AbstractMetadata.__init__ store with_metadata
         _metadata cls _entity _name].
    cbn [Dict.get Dict.set Dict.empty String.eqb Ascii.eqb Bool.eqb].
    now rewrite H1, H2, H3, H4.
Qed.

Lemma objectname_is_lower_case_witness :
  exists s,
    Dict.get "objectname"
      (_metadata (MetadataAdmin.__init__ MetadataAdmin sample_env dataset
                    "SF_Listings" [])) = Some (VStr s) /\
    PyStr.is_ascii s = true /\
    PyStr.lower s = s /\
    Dict.get "objectname"
      (_metadata (MetadataAdmin.__init__ MetadataAdminURL shouting_env
                    (Entity "DATASET" []) "sf_LISTINGS" [])) = Some (VStr s).
Proof.
  destruct (@objectname_is_lower_case MetadataAdmin sample_env dataset
              "SF_Listings" [] eq_refl eq_refl eq_refl)
    as (s & Hs & Ha & Hl & Hcase).
  exists s. split; [exact Hs|]. split; [exact Ha|]. split; [exact Hl|].
  apply Hcase; reflexivity.
Defined.

(** ** Technical records *)

Lemma get_filter_keys {V} (p : string -> bool) k (d : Dict.t V) :
  Dict.get k (Dict.filter_keys p d) = if p k then Dict.get k d else None.
Proof.
  unfold Dict.filter_keys.
  induction d as [|[k0 v0] d IH]; cbn [filter fst].
  - now destruct (p k).
  - destruct (p k0) eqn:E0; rewrite ?get_cons.
    + rewrite IH. destruct (String.eqb k k0) eqn:E; [|reflexivity].
      apply String.eqb_eq in E. subst k0. now rewrite E0.
    + rewrite IH. destruct (String.eqb k k0) eqn:E; [|reflexivity].
      apply String.eqb_eq in E. subst k0. now rewrite E0.
Qed.

Lemma keys_filter_keys_incl {V} (p : string -> bool) (d : Dict.t V) :
  incl (Dict.keys (Dict.filter_keys p d)) (Dict.keys d).
Proof.
  unfold Dict.filter_keys, Dict.keys. intros x Hx.
  apply in_map_iff in Hx. destruct Hx as (kv & <- & Hin).
  apply filter_In in Hin. apply in_map. tauto.
Qed.

Lemma NoDup_filter_keys {V} (p : string -> bool) (d : Dict.t V) :
  NoDup (Dict.keys d) -> NoDup (Dict.keys (Dict.filter_keys p d)).
Proof.
  induction d as [|[k0 v0] d IH]; [auto|].
  intros H. inversion H as [|x l Hx Hl]; subst.
  unfold Dict.filter_keys. cbn [filter fst]. destruct (p k0).
  - change (NoDup (k0 :: Dict.keys (Dict.filter_keys p d))).
    constructor; [|now apply IH].
    intros Hin. apply Hx. now apply (@keys_filter_keys_incl V p d).
  - now apply IH.
Qed.

(** [d.update(other)] for a dictionary [other]: its items win, the rest
    of [d] stays. *)
Lemma get_update {V} k (other d : Dict.t V) :
  NoDup (Dict.keys other) ->
  Dict.get k (Dict.update other d) =
    match Dict.get k other with
    | Some v => Some v
    | None => Dict.get k d
    end.
Proof.
  unfold Dict.update. revert d.
  induction other as [|[k0 v0] other IH]; intros d H; [reflexivity|].
  inversion H as [|x l Hx Hl]; subst.
  cbn [fold_left fst snd]. rewrite (IH _ Hl), get_cons.
  destruct (String.eqb k k0) eqn:E.
  - apply String.eqb_eq in E. subst k0.
    apply get_none_not_in in Hx. rewrite Hx. apply get_set_same.
  - apply String.eqb_neq in E. now rewrite get_set_other.
Qed.

(** X8: a [MetadataTechRDBMS] record takes from the keyword arguments
    exactly the connection parameters: under [database], [user],
    [password], [host] and [port] it holds what the arguments give (and
    nothing when they give nothing); under every other key it holds what
    a plain [MetadataTech] record holds, so other arguments are ignored. *)
Theorem rdbms_stores_connection_params c env e name kwargs k :
  NoDup (Dict.keys kwargs) ->
  Dict.get k (_metadata (MetadataTechRDBMS.__init__ c env e name kwargs)) =
    if existsb (String.eqb k) MetadataTechRDBMS._params
    then Dict.get k kwargs
    else Dict.get k (_metadata (MetadataTech.__init__ c env e name kwargs)).
Proof.
  intros H. unfold MetadataTechRDBMS.__init__.
  cbn [_metadata with_metadata].
  rewrite get_update by now apply NoDup_filter_keys.
  rewrite get_filter_keys.
  destruct (existsb (String.eqb k) MetadataTechRDBMS._params) eqn:E;
    [|reflexivity].
  destruct (Dict.get k kwargs); [reflexivity|].
  unfold MetadataTechRDBMS._params in E. cbn [existsb] in E.
  repeat (apply orb_true_iff in E; destruct E as [E|E];
          [apply String.eqb_eq in E; subst k; reflexivity|]).
  discriminate E.
Qed.

Lemma rdbms_stores_connection_params_witness :
  Dict.get "port"
    (_metadata (MetadataTechRDBMS.__init__ MetadataTechRDBMS sample_env
                  dataset "listings_db"
                  [("host", VStr "localhost"); ("port", VInt 5432);
                   ("schema", VStr "public")])) =
    if existsb (String.eqb "port") MetadataTechRDBMS._params
    then Dict.get "port" [("host", VStr "localhost"); ("port", VInt 5432);
                          ("schema", VStr "public")]
    else Dict.get "port"
           (_metadata (MetadataTech.__init__ MetadataTechRDBMS sample_env
                         dataset "listings_db"
                         [("host", VStr "localhost"); ("port", VInt 5432);
                          ("schema", VStr "public")])).
Proof.
  apply (@rdbms_stores_connection_params MetadataTechRDBMS sample_env dataset
           "listings_db"
           [("host", VStr "localhost"); ("port", VInt 5432);
            ("schema", VStr "public")] "port").
  repeat (constructor; [cbn; intuition discriminate|]). constructor.
Defined.

(** X9: [update_metadata] on a Technical record without an [updates]
    attribute (as the constructors build it) raises [KeyError('updates')],
    but only after the host snapshot was taken again: the record is left
    holding the values of the environment of the call. *)
Theorem update_metadata_refreshes_then_raises env event w :
  Dict.get "updates" (_metadata (self w)) = None ->
  let r := MetadataTech.update_metadata env event w in
  let d' := _metadata (self (snd r)) in
  fst r = Raise (KeyError "updates") /\
  Dict.get "system" d' = Some (VStr (system (uname env))) /\
  Dict.get "node" d' = Some (VStr (node (uname env))) /\
  Dict.get "release" d' = Some (VStr (release (uname env))) /\
  Dict.get "version" d' = Some (VStr (version (uname env))) /\
  Dict.get "machine" d' = Some (VStr (machine (uname env))) /\
  Dict.get "processor" d' = Some (VStr (processor (uname env))) /\
  Dict.get "physical_cores" d' = Some (cpu_count env false) /\
  Dict.get "total_cores" d' = Some (cpu_count env true) /\
  Dict.get "total_memory" d' =
    Some (scale_number env (total (virtual_memory env))) /\
  Dict.get "available_memory" d' =
    Some (scale_number env (available (virtual_memory env))) /\
  Dict.get "used_memory" d' =
    Some (scale_number env (used (virtual_memory env))) /\
  Dict.get "pct_memory_used" d' = Some (percent (virtual_memory env)) /\
  Dict.get "object_size" d' = Some (VInt (getsizeof env (_entity (self w)))).
Proof.
  intros H.
  assert (Hrun : exists d',
    MetadataTech._format_metadata env w =
      (Return tt, World (with_metadata (self w) d') (stdout w)) /\
    Dict.get "updates" d' = None /\
    Dict.get "system" d' = Some (VStr (system (uname env))) /\
    Dict.get "node" d' = Some (VStr (node (uname env))) /\
    Dict.get "release" d' = Some (VStr (release (uname env))) /\
    Dict.get "version" d' = Some (VStr (version (uname env))) /\
    Dict.get "machine" d' = Some (VStr (machine (uname env))) /\
    Dict.get "processor" d' = Some (VStr (processor (uname env))) /\
    Dict.get "physical_cores" d' = Some (cpu_count env false) /\
    Dict.get "total_cores" d' = Some (cpu_count env true) /\
    Dict.get "total_memory" d' =
      Some (scale_number env (total (virtual_memory env))) /\
    Dict.get "available_memory" d' =
      Some (scale_number env (available (virtual_memory env))) /\
    Dict.get "used_memory" d' =
      Some (scale_number env (used (virtual_memory env))) /\
    Dict.get "pct_memory_used" d' = Some (percent (virtual_memory env)) /\
    Dict.get "object_size" d' =
      Some (VInt (getsizeof env (_entity (self w))))).
  { eexists. split.
    - unfold MetadataTech._format_metadata.
      unfold bind at 1. cbn [get_self fst snd].
      repeat (unfold bind at 1; rewrite setitem_run;
              cbn [self stdout _metadata with_metadata cls _entity _name]).
      rewrite setitem_run.
      cbn [self stdout _metadata with_metadata cls _entity _name].
      reflexivity.
    - split; [rewrite !get_set_other by discriminate; exact H|].
      repeat match goal with |- _ /\ _ => split end;
        rewrite ?get_set_other by discriminate; apply get_set_same. }
  destruct Hrun as (d' & Hrun & Hupd & Hrest).
  assert (Hall : MetadataTech.update_metadata env event w =
    (Raise (KeyError "updates"), World (with_metadata (self w) d') (stdout w))).
  { unfold MetadataTech.update_metadata, AbstractMetadata.update,
      AbstractMetadata.increment.
    unfold bind at 1. rewrite Hrun.
    unfold bind at 1. unfold AbstractMetadata.getitem, bind, get_self, raise.
    cbn [self stdout fst snd _metadata with_metadata cls _entity _name].
    now rewrite Hupd. }
  cbv zeta. rewrite Hall.
  cbn [self fst snd _metadata with_metadata].
  split; [reflexivity|exact Hrest].
Qed.

Lemma update_metadata_refreshes_then_raises_witness :
  let r := MetadataTech.update_metadata later_env VNone tech_record in
  let d' := _metadata (self (snd r)) in
  fst r = Raise (KeyError "updates") /\
  Dict.get "system" d' = Some (VStr (system (uname later_env))) /\
  Dict.get "node" d' = Some (VStr (node (uname later_env))) /\
  Dict.get "release" d' = Some (VStr (release (uname later_env))) /\
  Dict.get "version" d' = Some (VStr (version (uname later_env))) /\
  Dict.get "machine" d' = Some (VStr (machine (uname later_env))) /\
  Dict.get "processor" d' = Some (VStr (processor (uname later_env))) /\
  Dict.get "physical_cores" d' = Some (cpu_count later_env false) /\
  Dict.get "total_cores" d' = Some (cpu_count later_env true) /\
  Dict.get "total_memory" d' =
    Some (scale_number later_env (total (virtual_memory later_env))) /\
  Dict.get "available_memory" d' =
    Some (scale_number later_env (available (virtual_memory later_env))) /\
  Dict.get "used_memory" d' =
    Some (scale_number later_env (used (virtual_memory later_env))) /\
  Dict.get "pct_memory_used" d' = Some (percent (virtual_memory later_env)) /\
  Dict.get "object_size" d' =
    Some (VInt (getsizeof later_env (_entity (self tech_record)))).
Proof.
  apply (@update_metadata_refreshes_then_raises later_env VNone tech_record).
  reflexivity.
Defined.

(** ** The taxonomy: lookups *)

(** A full kind name, in either case, matches its own key only. *)
Lemma matches_kind_name K K' :
  Metadata.matches (kind_name K) (PyStr.lower (kind_name K')) =
    String.eqb (PyStr.lower (kind_name K)) (PyStr.lower (kind_name K')) /\
  Metadata.matches (PyStr.lower (kind_name K)) (PyStr.lower (kind_name K')) =
    String.eqb (PyStr.lower (kind_name K)) (PyStr.lower (kind_name K')).
Proof. destruct K, K'; split; reflexivity. Qed.

Lemma first_match_keyed (t : taxonomy) s key :
  keyed_by_kind t ->
  (forall K, Metadata.matches s (PyStr.lower (kind_name K)) =
             String.eqb key (PyStr.lower (kind_name K))) ->
  Dict.first_match (Metadata.matches s) t = Dict.get key t.
Proof.
  intros Hk Hs. induction Hk as [|[k r0] t Hx Ht IH]; [reflexivity|].
  cbn [fst snd] in Hx. subst k.
  rewrite get_cons, first_match_cons. unfold metadata_type.
  rewrite Hs. destruct (String.eqb _ _); auto.
Qed.

Lemma taxonomy_get_run s w :
  Metadata.get (Some s) w =
    (match Dict.first_match (Metadata.matches s) (self w) with
     | Some r => Return (Record_ r)
     | None => Raise StopIteration
     end, w).
Proof.
  unfold Metadata.get, bind, get_self, ret, raise. cbn [self fst snd].
  destruct (Dict.first_match _ _); reflexivity.
Qed.

(** X10: in a taxonomy that keeps its invariant, a record that was just
    added is what a lookup by its full kind name returns, whether the
    name is spelled as the record carries it or in lower case. *)
Theorem taxonomy_add_then_get w r :
  taxonomy_inv (self w) ->
  let w' := snd (Metadata.add r w) in
  Metadata.get (Some (metadata_type r)) w' = (Return (Record_ r), w') /\
  Metadata.get (Some (PyStr.lower (metadata_type r))) w' =
    (Return (Record_ r), w').
Proof.
  intros Hinv. rewrite taxonomy_add_run. cbn [snd].
  assert (Hk : keyed_by_kind
                 (Dict.set (PyStr.lower (metadata_type r)) r (self w)))
    by (apply (set_preserves_inv r Hinv)).
  split; rewrite taxonomy_get_run; cbn [self];
    rewrite (@first_match_keyed _ _ (PyStr.lower (metadata_type r)) Hk)
      by (intros K; apply matches_kind_name);
    now rewrite get_set_same.
Qed.

Lemma taxonomy_inv_empty : taxonomy_inv Metadata.__init__.
Proof. split; constructor. Qed.

Lemma taxonomy_add_then_get_witness :
  let w' := snd (Metadata.add (self admin_record) (World Metadata.__init__ [])) in
  Metadata.get (Some (metadata_type (self admin_record))) w' =
    (Return (Record_ (self admin_record)), w') /\
  Metadata.get (Some (PyStr.lower (metadata_type (self admin_record)))) w' =
    (Return (Record_ (self admin_record)), w').
Proof.
  apply (@taxonomy_add_then_get (World Metadata.__init__ [])
           (self admin_record)).
  exact taxonomy_inv_empty.
Defined.

(** X11: a lookup returns the first record, in the order of insertion,
    whose key contains the given text, compared without regard to case;
    records stored later under keys that match as well are not seen. *)
Theorem taxonomy_get_first_match w s s' t1 k r t2 :
  self w = (t1 ++ (k, r) :: t2)%list ->
  (forall k', In k' (Dict.keys t1) -> Metadata.matches s k' = false) ->
  Metadata.matches s k = true ->
  PyStr.lower s' = PyStr.lower s ->
  Metadata.get (Some s') w = (Return (Record_ r), w).
Proof.
  intros Hw H1 Hk Hs. destruct w as [t out]. cbn [self] in Hw. subst t.
  rewrite taxonomy_get_run. cbn [self].
  assert (E : Metadata.matches s' = Metadata.matches s).
  { unfold Metadata.matches. now rewrite Hs. }
  rewrite E. clear E Hs.
  assert (F : Dict.first_match (Metadata.matches s)
                (t1 ++ (k, r) :: t2)%list = Some r).
  { induction t1 as [|[k0 r0] t1 IH].
    - cbn [app]. now rewrite first_match_cons, Hk.
    - cbn [app]. rewrite first_match_cons, (H1 k0) by (left; reflexivity).
      apply IH. intros k' Hin. apply H1. right. exact Hin. }
  now rewrite F.
Qed.

Lemma taxonomy_get_first_match_witness :
  let desc := desc_record "Listings" in
  let w := World [("descriptive", desc); ("administrative", self admin_record)]
                 [] in
  Metadata.get (Some "TIVE") w = (Return (Record_ desc), w).
Proof.
  apply (@taxonomy_get_first_match
           (World [("descriptive", desc_record "Listings");
                   ("administrative", self admin_record)] [])
           "tive" "TIVE" [] "descriptive" (desc_record "Listings")
           [("administrative", self admin_record)]).
  - reflexivity.
  - intros k' [].
  - reflexivity.
  - reflexivity.
Defined.

(** X12: the empty text is contained in every key, so [get("")] returns
    the record that was added first and raises [StopIteration] on an empty
    taxonomy, while [get()] returns the whole mapping; neither changes the
    taxonomy or prints. *)
Theorem taxonomy_get_empty_text w :
  Metadata.get (Some "") w =
    (match self w with
     | [] => Raise StopIteration
     | (_, r) :: _ => Return (Record_ r)
     end, w) /\
  Metadata.get None w = (Return (Whole (self w)), w).
Proof.
  split; [|reflexivity].
  rewrite taxonomy_get_run. destruct (self w) as [|[k r] t]; [reflexivity|].
  rewrite first_match_cons. unfold Metadata.matches.
  cbn [PyStr.lower]. now destruct (PyStr.lower k).
Qed.

(** ** Factories *)

(** The kinds stored after a record was stored under its kind's key. *)
Lemma kinds_set (t : taxonomy) r K :
  keyed_by_kind t ->
  In K (kinds (Dict.set (PyStr.lower (metadata_type r)) r t)) <->
  K = kind_of (cls r) \/ In K (kinds t).
Proof.
  intros Hk. set (key := PyStr.lower (metadata_type r)).
  destruct (Dict.get key t) eqn:G.
  - destruct (@set_present _ key r t) as (d1 & r0 & d2 & Ht & Hs);
      [congruence|].
    rewrite Hs. subst t. unfold keyed_by_kind in Hk.
    apply Forall_app in Hk. destruct Hk as [_ Hk2].
    inversion Hk2 as [|x l Hx _]; subst. cbn [fst snd] in Hx.
    assert (E : kind_of (cls r) = kind_of (cls r0))
      by (apply metadata_type_key_inj; exact Hx).
    unfold kinds. rewrite !map_app. cbn [map snd]. rewrite E.
    rewrite !in_app_iff. cbn [In]. intuition.
  - rewrite (@set_absent _ key r t G). unfold kinds. rewrite map_app.
    rewrite in_app_iff. cbn [map In snd]. intuition.
Qed.

Lemma in_set_inv {V} k (v : V) (d : Dict.t V) k0 v0 :
  In (k0, v0) (Dict.set k v d) -> (k0 = k /\ v0 = v) \/ In (k0, v0) d.
Proof.
  induction d as [|[k' v'] d IH]; cbn [Dict.set].
  - intros [H|[]]. inversion H. auto.
  - destruct (String.eqb k k') eqn:E.
    + apply String.eqb_eq in E. subst k'.
      intros [H|H]; [inversion H; auto|right; right; exact H].
    + intros [H|H]; [right; left; exact H|].
      destruct (IH H) as [H'|H']; [left; exact H'|right; right; exact H'].
Qed.

Lemma built_by_set table (t : taxonomy) key r :
  cls r = table (kind_of (cls r)) ->
  built_by table t -> built_by table (Dict.set key r t).
Proof.
  intros Hr Ht. unfold built_by in *. rewrite Forall_forall in *.
  intros [k0 r0] Hin. apply in_set_inv in Hin.
  destruct Hin as [[_ ->]|Hin]; [exact Hr|exact (Ht _ Hin)].
Qed.

Lemma entity_table_kind K : kind_of (entity_table K) = K.
Proof. now destruct K. Qed.

Lemma collection_table_kind K : kind_of (collection_table K) = K.
Proof. now destruct K. Qed.

Ltac run_create H :=
  unfold AbstractMetadataFactory.getattr_addl_params,
    AbstractMetadataFactory.metadata_add, Metadata.add, bind, get_self,
    put_self, ret, lift, built;
  cbn [self stdout fst snd]; rewrite H; cbn [self stdout fst snd];
  rewrite ?H; reflexivity.

Lemma entity_step_stores : stores_record entity_table entity_step.
Proof.
  intros [rt K] w kw H Hc. destruct K; cbn [entity_step can_create fst snd] in *;
    eexists; (split; [|split]).
  3: { unfold MetadataEntityFactory.create_admin_in, MetadataAdmin.construct.
       rewrite Hc. run_create H. }
  1, 2: reflexivity.
  3: { unfold MetadataEntityFactory.create_desc. run_create H. }
  1, 2: reflexivity.
  3: { unfold MetadataEntityFactory.create_tech. run_create H. }
  1, 2: reflexivity.
  3: { unfold MetadataEntityFactory.create_process_in,
         MetadataProcess.construct.
       rewrite Hc. run_create H. }
  1, 2: reflexivity.
Qed.

Lemma collection_step_stores : stores_record collection_table collection_step.
Proof.
  intros [rt K] w kw H Hc.
  destruct K; cbn [collection_step can_create fst snd] in *;
    eexists; (split; [|split]).
  3: { unfold MetadataDataCollectionFactory.create_admin_in,
         MetadataAdmin.construct.
       rewrite Hc. run_create H. }
  1, 2: reflexivity.
  3: { unfold MetadataDataCollectionFactory.create_desc. run_create H. }
  1, 2: reflexivity.
  3: { unfold MetadataDataCollectionFactory.create_tech. run_create H. }
  1, 2: reflexivity.
  3: { unfold MetadataDataCollectionFactory.create_process_in,
         MetadataProcess.construct.
       rewrite Hc. run_create H. }
  1, 2: reflexivity.
Qed.

Ltac run_blocked H :=
  unfold AbstractMetadataFactory.getattr_addl_params, bind, get_self, ret,
    lift;
  cbn [self stdout fst snd]; rewrite H; reflexivity.

(** A step that needs the login name in a process without a controlling
    terminal raises [OSError] and adds nothing. *)
Lemma entity_step_blocked c w kw :
  AbstractMetadataFactory._addl_params (self w) = Some kw ->
  can_create c = false ->
  entity_step c w = (Raise OSError, w).
Proof.
  destruct c as [rt K]. intros H Hc.
  destruct K; cbn [entity_step can_create fst snd] in *; try discriminate.
  - unfold MetadataEntityFactory.create_admin_in, MetadataAdmin.construct.
    rewrite Hc. run_blocked H.
  - unfold MetadataEntityFactory.create_process_in, MetadataProcess.construct.
    rewrite Hc. run_blocked H.
Qed.

Lemma collection_step_blocked c w kw :
  AbstractMetadataFactory._addl_params (self w) = Some kw ->
  can_create c = false ->
  collection_step c w = (Raise OSError, w).
Proof.
  destruct c as [rt K]. intros H Hc.
  destruct K; cbn [collection_step can_create fst snd] in *; try discriminate.
  - unfold MetadataDataCollectionFactory.create_admin_in,
      MetadataAdmin.construct.
    rewrite Hc. run_blocked H.
  - unfold MetadataDataCollectionFactory.create_process_in,
      MetadataProcess.construct.
    rewrite Hc. run_blocked H.
Qed.

Section FactorySteps.
Variable table : kind -> klass.
Variable step : runtime * kind -> M AbstractMetadataFactory.factory unit.
Hypothesis table_kind : forall K, kind_of (table K) = K.
Hypothesis step_stores : stores_record table step.

(** A series of creation steps that can create returns; it keeps the
    invariant of the taxonomy, the class table and the entity of the
    records, adds the kinds of the steps, and changes nothing else of the
    factory. *)
Lemma steps_build steps : forall e name kw t out,
  Forall (fun c => can_create c = true) steps ->
  taxonomy_inv t -> built_by table t ->
  (forall k r, In (k, r) t -> _entity r = e) ->
  exists t',
    for_each steps step
      (World (AbstractMetadataFactory.Factory e name (Some kw) t) out) =
      (Return tt,
       World (AbstractMetadataFactory.Factory e name (Some kw) t') out) /\
    taxonomy_inv t' /\ built_by table t' /\
    (forall K, In K (kinds t') <-> In K (kinds t) \/ In K (map snd steps)) /\
    (forall k r, In (k, r) t' -> _entity r = e).
Proof.
  induction steps as [|c steps IH]; intros e name kw t out Hcan Hinv Hb He.
  - exists t. cbn [for_each map In]. unfold ret. intuition.
  - inversion Hcan as [|c0 cs Hc Hcs]; subst.
    cbn [for_each]. unfold bind at 1.
    destruct (step_stores c
                (World (AbstractMetadataFactory.Factory e name (Some kw) t) out)
                eq_refl Hc) as (r & Hcl & Hent & Hrun).
    rewrite Hrun. unfold built. cbn [self stdout AbstractMetadataFactory._entity
      AbstractMetadataFactory._name AbstractMetadataFactory._metadata].
    cbn [self AbstractMetadataFactory._entity] in Hent.
    assert (Hkr : kind_of (cls r) = snd c) by (rewrite Hcl; apply table_kind).
    destruct (IH e name kw (Dict.set (PyStr.lower (metadata_type r)) r t) out)
      as (t' & Hrun' & Hinv' & Hb' & Hk' & He').
    + exact Hcs.
    + now apply set_preserves_inv.
    + apply built_by_set; [|exact Hb]. now rewrite Hkr.
    + intros k0 r0 Hin. apply in_set_inv in Hin.
      destruct Hin as [[_ ->]|Hin]; [exact Hent|exact (He _ _ Hin)].
    + exists t'. split; [exact Hrun'|]. split; [exact Hinv'|].
      split; [exact Hb'|]. split; [|exact He'].
      intros K. rewrite Hk', (kinds_set r K (proj2 Hinv)), Hkr.
      cbn [map In]. intuition.
Qed.

End FactorySteps.

(** X13: an entity builder started with [MetadataEntityFactory(entity,
    name, **kwargs)] runs a series of creation steps without raising when
    every [create_admin] and [create_process] of the series is called in
    a process with a controlling terminal (their constructors read the
    login name; [create_desc] and [create_tech] do not).  Reading
    [metadata] then returns a taxonomy that holds exactly the kinds that
    were created, one record per kind, each of the class the builder's
    table gives and each describing the builder's entity, and leaves the
    builder exactly as it was when it was constructed.  A
    [create_admin] or [create_process] called without a controlling
    terminal raises [OSError] and leaves the builder as it was. *)
Theorem entity_factory_builds e name kwargs out steps :
  Forall (fun c => can_create c = true) steps ->
  let w0 := World (MetadataEntityFactory.__init__ e name kwargs) out in
  (exists t,
     (for_each steps entity_step ;; AbstractMetadataFactory.metadata) w0 =
       (Return t, w0) /\
     taxonomy_inv t /\ built_by entity_table t /\
     (forall K, In K (kinds t) <-> In K (map snd steps)) /\
     (forall k r, In (k, r) t -> _entity r = e)) /\
  (forall c w kw,
     AbstractMetadataFactory._addl_params (self w) = Some kw ->
     can_create c = false ->
     entity_step c w = (Raise OSError, w)).
Proof.
  intros Hcan. cbv zeta. split; [|exact entity_step_blocked].
  unfold MetadataEntityFactory.__init__, AbstractMetadataFactory.__init__.
  assert (Hnone : forall k (r : metadata_object),
            In (k, r) Metadata.__init__ -> _entity r = e)
    by (intros k r []).
  destruct (@steps_build entity_table entity_step entity_table_kind
              entity_step_stores steps e name
              (Dict.update kwargs Dict.empty) Metadata.__init__ out
              Hcan taxonomy_inv_empty (Forall_nil _) Hnone)
    as (t & Hrun & Hinv & Hb & Hk & He).
  exists t. unfold bind. rewrite Hrun.
  split; [reflexivity|]. split; [exact Hinv|]. split; [exact Hb|].
  split; [|exact He]. intros K. rewrite Hk.
  unfold Metadata.__init__, Dict.empty. cbn [kinds map In]. intuition.
Qed.

Lemma entity_factory_builds_witness :
  let steps :=
    [(at_terminal sample_env, Administrative);
     (headless later_env, Descriptive);
     (headless later_env, Technical);
     (at_terminal later_env, Process)] in
  let w0 :=
    World (MetadataEntityFactory.__init__ dataset "sf_listings" []) [] in
  (exists t,
     (for_each steps entity_step ;; AbstractMetadataFactory.metadata) w0 =
       (Return t, w0) /\
     taxonomy_inv t /\ built_by entity_table t /\
     (forall K, In K (kinds t) <-> In K (map snd steps)) /\
     (forall k r, In (k, r) t -> _entity r = dataset)) /\
  (forall c w kw,
     AbstractMetadataFactory._addl_params (self w) = Some kw ->
     can_create c = false ->
     entity_step c w = (Raise OSError, w)).
Proof.
  apply (@entity_factory_builds dataset "sf_listings" [] []
           [(at_terminal sample_env, Administrative);
            (headless later_env, Descriptive);
            (headless later_env, Technical);
            (at_terminal later_env, Process)]).
  repeat constructor.
Defined.

(** X14: the same for a collection builder, whose table gives the
    counting [MetadataDescDataCollection] for the Descriptive kind:
    a series of creation steps returns when every [create_admin] and
    [create_process] is called in a process with a controlling terminal,
    [metadata] then yields one record per created kind and re-arms the
    builder, and a [create_admin] or [create_process] without a terminal
    raises [OSError] and leaves the builder as it was. *)
Theorem collection_factory_builds e name kwargs out steps :
  Forall (fun c => can_create c = true) steps ->
  let w0 := World (MetadataDataCollectionFactory.__init__ e name kwargs) out in
  (exists t,
     (for_each steps collection_step ;; AbstractMetadataFactory.metadata) w0 =
       (Return t, w0) /\
     taxonomy_inv t /\ built_by collection_table t /\
     (forall K, In K (kinds t) <-> In K (map snd steps)) /\
     (forall k r, In (k, r) t -> _entity r = e)) /\
  (forall c w kw,
     AbstractMetadataFactory._addl_params (self w) = Some kw ->
     can_create c = false ->
     collection_step c w = (Raise OSError, w)).
Proof.
  intros Hcan. cbv zeta. split; [|exact collection_step_blocked].
  unfold MetadataDataCollectionFactory.__init__,
    AbstractMetadataFactory.__init__.
  assert (Hnone : forall k (r : metadata_object),
            In (k, r) Metadata.__init__ -> _entity r = e)
    by (intros k r []).
  destruct (@steps_build collection_table collection_step
              collection_table_kind collection_step_stores steps e name
              (Dict.update kwargs Dict.empty) Metadata.__init__ out
              Hcan taxonomy_inv_empty (Forall_nil _) Hnone)
    as (t & Hrun & Hinv & Hb & Hk & He).
  exists t. unfold bind. rewrite Hrun.
  split; [reflexivity|]. split; [exact Hinv|]. split; [exact Hb|].
  split; [|exact He]. intros K. rewrite Hk.
  unfold Metadata.__init__, Dict.empty. cbn [kinds map In]. intuition.
Qed.

Lemma collection_factory_builds_witness :
  let steps :=
    [(at_terminal sample_env, Administrative);
     (headless later_env, Descriptive);
     (at_terminal later_env, Process)] in
  let w0 :=
    World (MetadataDataCollectionFactory.__init__ collection "listings" [])
          [] in
  (exists t,
     (for_each steps collection_step ;; AbstractMetadataFactory.metadata) w0 =
       (Return t, w0) /\
     taxonomy_inv t /\ built_by collection_table t /\
     (forall K, In K (kinds t) <-> In K (map snd steps)) /\
     (forall k r, In (k, r) t -> _entity r = collection)) /\
  (forall c w kw,
     AbstractMetadataFactory._addl_params (self w) = Some kw ->
     can_create c = false ->
     collection_step c w = (Raise OSError, w)).
Proof.
  apply (@collection_factory_builds collection "listings" [] []
           [(at_terminal sample_env, Administrative);
            (headless later_env, Descriptive);
            (at_terminal later_env, Process)]).
  repeat constructor.
Defined.

(** X15: a remote builder, which never receives keyword arguments,
    cannot create any record: the first step of every non-empty series
    raises [AttributeError] and leaves the builder as it was, so
    [metadata] still returns an empty taxonomy. *)
Theorem remote_factory_never_builds e name out steps :
  steps <> [] ->
  let w0 := World (MetadataRemoteFactory.__init__ e name) out in
  for_each steps remote_step w0 = (Raise (AttributeError "_addl_params"), w0) /\
  AbstractMetadataFactory.metadata w0 = (Return Metadata.__init__, w0).
Proof.
  intros Hs. cbv zeta. split; [|reflexivity].
  destruct steps as [|[env K] steps]; [contradiction|].
  cbn [for_each]. unfold bind at 1. destruct K; reflexivity.
Qed.

Lemma remote_factory_never_builds_witness :
  let w0 := World (MetadataRemoteFactory.__init__ dataset "sf_listings") [] in
  for_each [(sample_env, Descriptive); (sample_env, Administrative)]
    remote_step w0 = (Raise (AttributeError "_addl_params"), w0) /\
  AbstractMetadataFactory.metadata w0 = (Return Metadata.__init__, w0).
Proof.
  apply (@remote_factory_never_builds dataset "sf_listings" []
           [(sample_env, Descriptive); (sample_env, Administrative)]).
  discriminate.
Defined.

(** ** Printing *)

Lemma for_each_print {O} (xs : list string) (w : world O) :
  for_each xs (fun x => print x) w =
    (Return tt, World (self w) (stdout w ++ xs)%list).
Proof.
  revert w. induction xs as [|x xs IH]; intros w.
  - cbn [for_each]. unfold ret. rewrite app_nil_r. now destruct w.
  - cbn [for_each]. unfold bind at 1. unfold print at 1.
    rewrite IH. cbn [self stdout]. now rewrite <- app_assoc.
Qed.

(** X16: [print_types] prints the keys of the taxonomy, one per line in
    the order in which the kinds were first added, after what was printed
    before, and leaves the taxonomy as it was. *)
Theorem print_types_prints_keys w :
  Metadata.print_types w =
    (Return tt, World (self w) (stdout w ++ Dict.keys (self w))%list).
Proof.
  unfold Metadata.print_types. unfold bind at 1. cbn [get_self].
  apply for_each_print.
Qed.

(** X17: [print] of a Process record whose log is a list prints the log
    lines in order after what was printed before and leaves the record as
    it was; for a record fresh from the constructor that is the single
    "instantiated" line. *)
Theorem process_print_prints_log w l :
  Dict.get "log" (_metadata (self w)) = Some (VList l) ->
  MetadataProcess.print w = (Return tt, World (self w) (stdout w ++ l)%list) /\
  forall c env e name kwargs out,
    MetadataProcess.print
      (World (MetadataProcess.__init__ c env e name kwargs) out) =
      (Return tt,
       World (MetadataProcess.__init__ c env e name kwargs)
             (out ++ [MetadataProcess.instantiated_msg env e name])%list).
Proof.
  intros H. split.
  - unfold MetadataProcess.print, AbstractMetadata.getitem.
    unfold bind at 1. unfold bind at 1. cbn [get_self]. rewrite H.
    unfold ret. apply for_each_print.
  - intros c env e name kwargs out. reflexivity.
Qed.

Lemma process_print_prints_log_witness :
  let w :=
    World (MetadataProcess.__init__ MetadataProcess sample_env dataset
             "sf_listings" []) ["ready"] in
  MetadataProcess.print w =
    (Return tt,
     World (self w)
       (stdout w ++
        [MetadataProcess.instantiated_msg sample_env dataset "sf_listings"])%list).
Proof.
  apply (@process_print_prints_log
           (World (MetadataProcess.__init__ MetadataProcess sample_env dataset
                     "sf_listings" []) ["ready"])
           [MetadataProcess.instantiated_msg sample_env dataset "sf_listings"]).
  reflexivity.
Defined.

(** ** Collection records: construction and frame *)

(** X18: the constructor of a collection's Descriptive record does not
    look at the members: whatever the entity holds, the three counters
    start at zero (only [update] counts), after the seven attributes of a
    plain Descriptive record, which are kept. *)
Theorem collection_record_starts_at_zero c e name kwargs :
  let d := _metadata (MetadataDescDataCollection.__init__ c e name kwargs) in
  Dict.get "n_members" d = Some (VInt 0) /\
  Dict.get "n_members_datacollection" d = Some (VInt 0) /\
  Dict.get "n_members_dataset" d = Some (VInt 0) /\
  d = (_metadata (MetadataDesc.__init__ c e name kwargs) ++
       [("n_members", VInt 0); ("n_members_datacollection", VInt 0);
        ("n_members_dataset", VInt 0)])%list.
Proof. repeat split. Qed.

(** X19: [update] of a collection's Descriptive record never raises and
    prints nothing, and it leaves the entity and every attribute other
    than the three counters as they were. *)
Theorem collection_update_frame env event w k :
  cls (self w) = MetadataDescDataCollection ->
  k <> "n_members" -> k <> "n_members_datacollection" ->
  k <> "n_members_dataset" ->
  fst (update env event w) = Return tt /\
  Dict.get k (_metadata (self (snd (update env event w)))) =
    Dict.get k (_metadata (self w)) /\
  stdout (snd (update env event w)) = stdout w.
Proof.
  intros Hc K1 K2 K3.
  assert (Hrun : exists w',
    update env event w = (Return tt, w') /\
    Dict.get k (_metadata (self w')) = Dict.get k (_metadata (self w)) /\
    stdout w' = stdout w).
  { unfold update. rewrite Hc.
    unfold MetadataDescDataCollection.update,
      MetadataDescDataCollection._reset, AbstractMetadata.setitem, bind,
      get_self, put_self.
    cbn [self stdout fst snd _metadata with_metadata cls _entity _name].
    set (w0 := World _ _).
    destruct (@count_members_loop (entity_get (_entity (self w))) w0 0 0 0)
      as (w' & Hrun & _ & _ & _ & Hfr & Hout).
    - unfold w0. cbn [self _metadata with_metadata].
      now rewrite !get_set_other, get_set_same by discriminate.
    - unfold w0. cbn [self _metadata with_metadata].
      now rewrite !get_set_other, get_set_same by discriminate.
    - unfold w0. cbn [self _metadata with_metadata]. apply get_set_same.
    - exists w'. split; [exact Hrun|].
      rewrite (Hfr k K1 K2 K3), Hout. unfold w0. cbn [self stdout _metadata with_metadata].
      now rewrite !get_set_other by assumption. }
  destruct Hrun as (w' & Hrun & Hk & Hout). rewrite Hrun. auto.
Qed.

Lemma collection_update_frame_witness :
  fst (update sample_env VNone collection_record) = Return tt /\
  Dict.get "version"
    (_metadata (self (snd (update sample_env VNone collection_record)))) =
    Dict.get "version" (_metadata (self collection_record)) /\
  stdout (snd (update sample_env VNone collection_record)) =
    stdout collection_record.
Proof.
  apply (@collection_update_frame sample_env VNone collection_record
           "version"); [reflexivity|discriminate..].
Defined.
